(** * DMARCer: the analysis core (src/analysis/analyzer.py)

    A shallow embedding of the statistics accumulator
    [_calculate_stats_for_reports], the time-window selector
    [analyze_reports] and the recommendation engine
    [generate_policy_recommendations], followed by the properties of the
    specification that concern them.

    Conventions of the embedding:
    - a Python [int] is a [Z]; a [str] is a [string];
    - a [dict] whose iteration order is observable ([domain_stats], [ips],
      the [periods] of a bundle) is an association list in insertion order;
      a [defaultdict(int)] histogram is a [gmap string Z] read with
      [hist_get], which answers 0 for a missing key; a [set] is a
      [gset string];
    - a key that a dict may lack is an [option] field, read the way the
      source reads it ([d.get(k, default)]);
    - a raised exception is the [Raise] branch of [result];
    - a float is a primitive binary64 float. *)

From Stdlib Require Import ZArith String Ascii List Sorted Lia Floats DecimalString.
From stdpp Require Import base option list gmap sets strings.

Open Scope string_scope.
Open Scope Z_scope.

(** ** Python values the analyzer relies on *)

(** Exceptions the analyzer can raise. *)
Inductive exn : Type :=
| KeyError (key : string)
| ValueError (text : string)
| TypeError (what : string).

Inductive result (A : Type) : Type :=
| Ok (a : A)
| Raise (e : exn).
Arguments Ok {A} a.
Arguments Raise {A} e.

Definition bind {A B : Type} (r : result A) (k : A -> result B) : result B :=
  match r with
  | Ok a => k a
  | Raise e => Raise e
  end.

Notation "'let*' x := r 'in' k" := (bind r (fun x => k))
  (at level 10, x name, r at level 100, k at level 200).

(** A [for] loop whose body may raise: the first exception ends it. *)
Fixpoint for_each {A S : Type} (body : S -> A -> result S) (l : list A) (s : S)
  : result S :=
  match l with
  | [] => Ok s
  | x :: l' => let* s' := body s x in for_each body l' s'
  end.

(** [str.lower()] on the ASCII letters; every other byte is kept.  No
    character outside ASCII lower-cases to a letter of ['pass']. *)
Definition lower_ascii (c : ascii) : ascii :=
  let n := N_of_ascii c in
  if ((65 <=? n) && (n <=? 90))%N then ascii_of_N (n + 32) else c.

Fixpoint lower (s : string) : string :=
  match s with
  | EmptyString => EmptyString
  | String c s' => String (lower_ascii c) (lower s')
  end.

(** [str(n)] and [f"{n}"] for an int. *)
Definition str_of_int (n : Z) : string := NilZero.string_of_int (Z.to_int n).

(** [int(s)] on a string of decimal digits, the only strings the analyzer
    passes to it (the keys of [TIME_PERIODS] other than ['all']); any other
    string is answered with [ValueError]. *)
Definition digit_of_ascii (c : ascii) : option Z :=
  let n := N_of_ascii c in
  if ((48 <=? n) && (n <=? 57))%N then Some (Z.of_N n - 48) else None.

Fixpoint int_digits (acc : Z) (s : string) : option Z :=
  match s with
  | EmptyString => Some acc
  | String c s' =>
      match digit_of_ascii c with
      | Some d => int_digits (10 * acc + d) s'
      | None => None
      end
  end.

Definition py_int (s : string) : result Z :=
  match s with
  | EmptyString => Raise (ValueError s)
  | _ => match int_digits 0 s with
         | Some n => Ok n
         | None => Raise (ValueError s)
         end
  end.

(** *** Floats *)

(** [a / b] on two ints with [b > 0]: CPython returns the quotient
    correctly rounded to binary64.  The quotient is taken with at least 55
    significant bits and a sticky bit, then rounded once, to nearest even. *)
Definition true_divide (a b : Z) : float :=
  let n := Z.abs a in
  if n =? 0 then 0%float
  else
    let k := Z.max 0 (56 + Z.log2 b - Z.log2 n) in
    let q := (n * 2 ^ k) / b in
    let sticky := if (n * 2 ^ k) mod b =? 0 then 0 else 1 in
    let m := 2 * q + sticky in
    SF2Prim (binary_normalize prec emax (if a <? 0 then - m else m) (- k - 1) false).

(** The literals of the thresholds, as binary64 values. *)
Definition f0_7 : float := 0x1.6666666666666p-1%float.   (* 0.7 *)
Definition f0_85 : float := 0x1.b333333333333p-1%float.  (* 0.85 *)
Definition f0_9 : float := 0x1.ccccccccccccdp-1%float.   (* 0.9 *)
Definition f0_95 : float := 0x1.e666666666666p-1%float.  (* 0.95 *)
Definition f0_98 : float := 0x1.f5c28f5c28f5cp-1%float.  (* 0.98 *)

(** [x >= y] and [x < y] on floats. *)
Definition float_ge (x y : float) : bool := PrimFloat.leb y x.
Definition float_lt (x y : float) : bool := PrimFloat.ltb x y.

(** Decimal digits of a non-negative integer, and a fixed-point rendering
    with one digit after the point of [n / 10]. *)
Definition one_decimal (n : Z) : string :=
  str_of_int (n / 10) +:+ "." +:+ str_of_int (n mod 10).

(** Rounding [m * 2^e * 10] to an integer, ties to even: the ['f'] format
    rounds the exact binary value. *)
Definition round_tenths (m : positive) (e : Z) : Z :=
  if 0 <=? e then Z.pos m * 2 ^ e * 10
  else
    let den := 2 ^ (- e) in
    let num := Z.pos m * 10 in
    let q := num / den in
    let r := num mod den in
    if 2 * r <? den then q
    else if den <? 2 * r then q + 1
    else if Z.even q then q else q + 1.

(** [f"{x:.1f}"]. *)
Definition format_f1 (x : float) : string :=
  match Prim2SF x with
  | S754_zero s => (if s then "-" else "") +:+ "0.0"
  | S754_infinity s => (if s then "-" else "") +:+ "inf"
  | S754_nan => "nan"
  | S754_finite s m e => (if s then "-" else "") +:+ one_decimal (round_tenths m e)
  end.

(** [f"{x:.1%}"]: the value is multiplied by 100 as a float, rendered with
    one decimal and followed by a percent sign. *)
Definition format_pct1 (x : float) : string :=
  format_f1 (PrimFloat.mul x 100%float) +:+ "%".

(** *** Dates *)

(** A naive [datetime] is the number of seconds since 1970-01-01T00:00:00 of
    its own calendar; [timedelta(days=d)] is [86400 * d] seconds.  The bounds
    of the type (years 1 to 9999) are not modelled. *)
Definition datetime : Type := Z.

Definition minus_days (t : datetime) (days : Z) : datetime := t - 86400 * days.

(** The civil date of a day number (days since 1970-01-01), proleptic
    Gregorian calendar. *)
Definition civil_from_days (z0 : Z) : Z * Z * Z :=
  let z := z0 + 719468 in
  let era := z / 146097 in
  let doe := z - era * 146097 in
  let yoe := (doe - doe / 1460 + doe / 36524 - doe / 146096) / 365 in
  let y := yoe + era * 400 in
  let doy := doe - (365 * yoe + yoe / 4 - yoe / 100) in
  let mp := (5 * doy + 2) / 153 in
  let d := doy - (153 * mp + 2) / 5 + 1 in
  let m := if mp <? 10 then mp + 3 else mp - 9 in
  (if m <=? 2 then y + 1 else y, m, d).

Definition two_digits (n : Z) : string :=
  if n <? 10 then "0" +:+ str_of_int n else str_of_int n.

(** [t.strftime('%Y-%m-%d')], for years of four digits. *)
Definition strftime_ymd (t : datetime) : string :=
  let '(y, m, d) := civil_from_days (t / 86400) in
  str_of_int y +:+ "-" +:+ two_digits m +:+ "-" +:+ two_digits d.

(** *** Ordered dictionaries *)

(** A [dict] in insertion order.  [od_set] is [d[k] = v]: an existing key
    keeps its place, a new key goes last. *)
Fixpoint od_get {V : Type} (k : string) (d : list (string * V)) : option V :=
  match d with
  | [] => None
  | (k', v) :: d' => if decide (k' = k) then Some v else od_get k d'
  end.

Fixpoint od_set {V : Type} (k : string) (v : V) (d : list (string * V))
  : list (string * V) :=
  match d with
  | [] => [(k, v)]
  | (k', v') :: d' =>
      if decide (k' = k) then (k, v) :: d' else (k', v') :: od_set k v d'
  end.

(** [d[k]] on a [defaultdict] with factory value [dflt], followed by the
    in-place change [f] of the entry. *)
Definition od_update {V : Type} (k : string) (f : V -> V) (dflt : V)
    (d : list (string * V)) : list (string * V) :=
  od_set k (f (default dflt (od_get k d))) d.

(** [h[k]] and [h[k] += n] on a [defaultdict(int)]. *)
Definition hist_get (h : gmap string Z) (k : string) : Z := default 0 (h !! k).

Definition hist_add (k : string) (n : Z) (h : gmap string Z) : gmap string Z :=
  <[k := hist_get h k + n]> h.

(** ** The report model *)

(** One row of a report, the dict built by the parser.  A key the parser
    leaves out is [None]. *)
Record DmarcRecord : Type := {
  rec_source_ip : option string;
  rec_count : option Z;
  rec_header_from : option string;
  rec_dkim_result : option string;
  rec_spf_result : option string;
  rec_disposition : option string
}.

Record Metadata : Type := {
  md_org_name : option string;
  md_begin_date_dt : option datetime;
  md_end_date_dt : option datetime
}.

(** [pp_pct] holds the published percentage as the integer that [int()]
    makes of it. *)
Record PolicyPublished : Type := {
  pp_domain : option string;
  pp_policy : option string;
  pp_subpolicy : option string;
  pp_pct : option Z
}.

(** A parsed report: a dict with the three keys ['metadata'],
    ['policy_published'] and ['records'], hence never falsy. *)
Record ParsedReport : Type := {
  metadata : Metadata;
  policy_published : PolicyPublished;
  records : list DmarcRecord
}.

(** ** The statistics accumulator *)

Record DomainStats : Type := {
  ds_count : Z;
  ds_dkim_pass : Z;
  ds_dkim_fail : Z;
  ds_spf_pass : Z;
  ds_spf_fail : Z;
  ds_fully_aligned : Z;
  ds_current_policy : string;
  ds_current_pct : Z;
  ds_current_sp : string;
  ds_sending_sources : gset string;
  ds_policy_applied : gmap string Z
}.

Record SourceStats : Type := {
  ip_count : Z;
  ip_domains : gset string;
  ip_dkim_pass : Z;
  ip_dkim_fail : Z;
  ip_spf_pass : Z;
  ip_spf_fail : Z;
  ip_fully_aligned : Z;
  ip_disposition : gmap string Z
}.

Record Stats : Type := {
  total_messages : Z;
  domains : gset string;
  domain_stats : list (string * DomainStats);
  reporting_orgs : gset string;
  ips : list (string * SourceStats);
  dkim_overall_pass : Z;
  dkim_overall_fail : Z;
  spf_overall_pass : Z;
  spf_overall_fail : Z;
  disposition_overall : gmap string Z;
  failures_by_domain : gmap string Z;
  date_range_begin : option datetime;
  date_range_end : option datetime
}.

(** The factory values of the two [defaultdict]s and the initial [stats]. *)
Definition new_domain_stats : DomainStats := {|
  ds_count := 0; ds_dkim_pass := 0; ds_dkim_fail := 0;
  ds_spf_pass := 0; ds_spf_fail := 0; ds_fully_aligned := 0;
  ds_current_policy := "none"; ds_current_pct := 100; ds_current_sp := "none";
  ds_sending_sources := ∅; ds_policy_applied := ∅
|}.

Definition new_source_stats : SourceStats := {|
  ip_count := 0; ip_domains := ∅;
  ip_dkim_pass := 0; ip_dkim_fail := 0; ip_spf_pass := 0; ip_spf_fail := 0;
  ip_fully_aligned := 0; ip_disposition := ∅
|}.

Definition new_stats : Stats := {|
  total_messages := 0; domains := ∅; domain_stats := []; reporting_orgs := ∅;
  ips := []; dkim_overall_pass := 0; dkim_overall_fail := 0;
  spf_overall_pass := 0; spf_overall_fail := 0;
  disposition_overall := ∅; failures_by_domain := ∅;
  date_range_begin := None; date_range_end := None
|}.

(** The fields of a record as the loop body reads them. *)
Definition msg_count_of (r : DmarcRecord) : Z := default 0 (rec_count r).
Definition source_ip_of (r : DmarcRecord) : string := default "Unknown" (rec_source_ip r).
Definition header_from_of (r : DmarcRecord) : string := default "Unknown" (rec_header_from r).
Definition dkim_result_of (r : DmarcRecord) : string := default "unknown" (rec_dkim_result r).
Definition spf_result_of (r : DmarcRecord) : string := default "unknown" (rec_spf_result r).
Definition disposition_of (r : DmarcRecord) : string := default "unknown" (rec_disposition r).

(** [result.lower() == 'pass'] *)
Definition is_pass (res : string) : bool := bool_decide (lower res = "pass").

Definition dkim_ok (r : DmarcRecord) : bool := is_pass (dkim_result_of r).
Definition spf_ok (r : DmarcRecord) : bool := is_pass (spf_result_of r).

(** The body of [if header_from == domain:], on the domain's entry. *)
Definition count_direct (r : DmarcRecord) (ds : DomainStats) : DomainStats :=
  let msg_count := msg_count_of r in {|
  ds_count := ds_count ds + msg_count;
  ds_dkim_pass := if dkim_ok r then ds_dkim_pass ds + msg_count else ds_dkim_pass ds;
  ds_dkim_fail := if dkim_ok r then ds_dkim_fail ds else ds_dkim_fail ds + msg_count;
  ds_spf_pass := if spf_ok r then ds_spf_pass ds + msg_count else ds_spf_pass ds;
  ds_spf_fail := if spf_ok r then ds_spf_fail ds else ds_spf_fail ds + msg_count;
  ds_fully_aligned :=
    if dkim_ok r || spf_ok r then ds_fully_aligned ds + msg_count
    else ds_fully_aligned ds;
  ds_current_policy := ds_current_policy ds;
  ds_current_pct := ds_current_pct ds;
  ds_current_sp := ds_current_sp ds;
  ds_sending_sources := {[source_ip_of r]} ∪ ds_sending_sources ds;
  ds_policy_applied := hist_add (disposition_of r) msg_count (ds_policy_applied ds)
|}.

(** The changes of one record to the entry of its source address. *)
Definition count_source (r : DmarcRecord) (ip : SourceStats) : SourceStats :=
  let msg_count := msg_count_of r in {|
  ip_count := ip_count ip + msg_count;
  ip_domains := {[header_from_of r]} ∪ ip_domains ip;
  ip_dkim_pass := if dkim_ok r then ip_dkim_pass ip + msg_count else ip_dkim_pass ip;
  ip_dkim_fail := if dkim_ok r then ip_dkim_fail ip else ip_dkim_fail ip + msg_count;
  ip_spf_pass := if spf_ok r then ip_spf_pass ip + msg_count else ip_spf_pass ip;
  ip_spf_fail := if spf_ok r then ip_spf_fail ip else ip_spf_fail ip + msg_count;
  ip_fully_aligned :=
    if dkim_ok r || spf_ok r then ip_fully_aligned ip + msg_count
    else ip_fully_aligned ip;
  ip_disposition := hist_add (disposition_of r) msg_count (ip_disposition ip)
|}.

(** [failures_by_domain] after the two checks of one record: one increment
    for a failed DKIM check, one more for a failed SPF check. *)
Definition count_failures (r : DmarcRecord) (f : gmap string Z) : gmap string Z :=
  let f1 := if dkim_ok r then f else hist_add (header_from_of r) (msg_count_of r) f in
  if spf_ok r then f1 else hist_add (header_from_of r) (msg_count_of r) f1.

(** The body of [for record in records:], for a report on [domain]. *)
Definition add_record (domain : string) (stats : Stats) (r : DmarcRecord) : Stats :=
  let msg_count := msg_count_of r in {|
  total_messages := total_messages stats + msg_count;
  domains := domains stats;
  domain_stats :=
    if decide (header_from_of r = domain)
    then od_update domain (count_direct r) new_domain_stats (domain_stats stats)
    else domain_stats stats;
  reporting_orgs := reporting_orgs stats;
  ips := od_update (source_ip_of r) (count_source r) new_source_stats (ips stats);
  dkim_overall_pass :=
    if dkim_ok r then dkim_overall_pass stats + msg_count else dkim_overall_pass stats;
  dkim_overall_fail :=
    if dkim_ok r then dkim_overall_fail stats else dkim_overall_fail stats + msg_count;
  spf_overall_pass :=
    if spf_ok r then spf_overall_pass stats + msg_count else spf_overall_pass stats;
  spf_overall_fail :=
    if spf_ok r then spf_overall_fail stats else spf_overall_fail stats + msg_count;
  disposition_overall := hist_add (disposition_of r) msg_count (disposition_overall stats);
  failures_by_domain := count_failures r (failures_by_domain stats);
  date_range_begin := date_range_begin stats;
  date_range_end := date_range_end stats
|}.

(** The running minimum of the begin dates and maximum of the end dates. *)
Definition earlier (seen : option datetime) (t : option datetime) : option datetime :=
  match t, seen with
  | Some b, None => Some b
  | Some b, Some b0 => if b <? b0 then Some b else Some b0
  | None, _ => seen
  end.

Definition later (seen : option datetime) (t : option datetime) : option datetime :=
  match t, seen with
  | Some e, None => Some e
  | Some e, Some e0 => if e0 <? e then Some e else Some e0
  | None, _ => seen
  end.

(** The domain under report. *)
Definition domain_of (report : ParsedReport) : string :=
  default "Unknown" (pp_domain (policy_published report)).

(** The published policy of a report overwrites the one of the entry. *)
Definition set_policy (policy : PolicyPublished) (ds : DomainStats) : DomainStats :=
  let current_policy := default "none" (pp_policy policy) in {|
  ds_count := ds_count ds;
  ds_dkim_pass := ds_dkim_pass ds; ds_dkim_fail := ds_dkim_fail ds;
  ds_spf_pass := ds_spf_pass ds; ds_spf_fail := ds_spf_fail ds;
  ds_fully_aligned := ds_fully_aligned ds;
  ds_current_policy := current_policy;
  ds_current_pct := default 100 (pp_pct policy);
  ds_current_sp := default current_policy (pp_subpolicy policy);
  ds_sending_sources := ds_sending_sources ds;
  ds_policy_applied := ds_policy_applied ds
|}.

(** The part of the body of [for report in reports_list:] before the loop
    over the records. *)
Definition open_report (stats : Stats) (report : ParsedReport) : Stats :=
  let md := metadata report in
  let policy := policy_published report in {|
  total_messages := total_messages stats;
  domains := {[domain_of report]} ∪ domains stats;
  domain_stats :=
    od_update (domain_of report) (set_policy policy) new_domain_stats (domain_stats stats);
  reporting_orgs := {[default "Unknown" (md_org_name md)]} ∪ reporting_orgs stats;
  ips := ips stats;
  dkim_overall_pass := dkim_overall_pass stats;
  dkim_overall_fail := dkim_overall_fail stats;
  spf_overall_pass := spf_overall_pass stats;
  spf_overall_fail := spf_overall_fail stats;
  disposition_overall := disposition_overall stats;
  failures_by_domain := failures_by_domain stats;
  date_range_begin := earlier (date_range_begin stats) (md_begin_date_dt md);
  date_range_end := later (date_range_end stats) (md_end_date_dt md)
|}.

(** The body of [for report in reports_list:].  The guard
    [if not report: continue] never fires on a [ParsedReport]. *)
Definition add_report (stats : Stats) (report : ParsedReport) : Stats :=
  fold_left (add_record (domain_of report)) (records report) (open_report stats report).

(** The early return on an empty list gives the initial [stats], as the
    loop over no report does. *)
Definition _calculate_stats_for_reports (reports_list : list ParsedReport) : Stats :=
  fold_left add_report reports_list new_stats.

(** ** The time-window selector *)

(** [utils.helpers.TIME_PERIODS]: days per period key, [None] for all data. *)
Definition TIME_PERIODS : list (string * option Z) :=
  [("30", Some 30); ("90", Some 90); ("180", Some 180); ("360", Some 360);
   ("all", None)].

(** One entry of [stats_bundle['periods']].  [pe_days] is [None] when the
    entry has no ['days'] key, [Some None] when the key holds [None]. *)
Record PeriodEntry : Type := {
  pe_stats : Stats;
  is_meaningful : bool;
  pe_days : option (option Z)
}.

(** The bundle.  [default_period] is [None] when the dict has no
    ['default_period'] key, [Some None] when the key holds [None]. *)
Record StatsBundle : Type := {
  periods : list (string * PeriodEntry);
  default_period : option (option string)
}.

(** The loop that finds the latest end date of the reports. *)
Definition find_max_end_date (all_sorted_reports : list ParsedReport) : option datetime :=
  fold_left (fun max_end_date r => later max_end_date (md_end_date_dt (metadata r)))
            all_sorted_reports None.

(** [report_end_date and report_end_date >= period_start] *)
Definition ends_since (period_start : datetime) (r : ParsedReport) : bool :=
  match md_end_date_dt (metadata r) with
  | Some report_end_date => bool_decide (period_start <= report_end_date)
  | None => false
  end.

(** The body of [for period_key in time_periods:], up to the store into
    the bundle. *)
Definition period_entry (all_sorted_reports : list ParsedReport)
    (max_end_date : datetime) (period_key : string) : result PeriodEntry :=
  let* days :=
    match od_get period_key TIME_PERIODS with
    | Some days => Ok days
    | None => Raise (KeyError period_key)
    end in
  if decide (period_key = "all") then
    let period_stats := _calculate_stats_for_reports all_sorted_reports in
    Ok {| pe_stats := period_stats;
          is_meaningful := 0 <? total_messages period_stats;
          pe_days := Some None |}
  else
    match days with
    | None => Raise (TypeError "timedelta(days=None)")
    | Some days =>
        let period_start := minus_days max_end_date days in
        let filtered_reports := List.filter (ends_since period_start) all_sorted_reports in
        let period_stats := _calculate_stats_for_reports filtered_reports in
        Ok {| pe_stats := period_stats;
              is_meaningful :=
                (0 <? Z.of_nat (length filtered_reports))
                && (0 <? total_messages period_stats);
              pe_days := Some (Some days) |}
    end.

Definition store_period (all_sorted_reports : list ParsedReport) (max_end_date : datetime)
    (ps : list (string * PeriodEntry)) (period_key : string)
  : result (list (string * PeriodEntry)) :=
  let* entry := period_entry all_sorted_reports max_end_date period_key in
  Ok (od_set period_key entry ps).

(** [sorted(l, key=...)]: the keys are computed first, then the list is
    sorted by them, equal keys staying in their order. *)
Fixpoint with_keys {A : Type} (key : A -> result Z) (l : list A) : result (list (Z * A)) :=
  match l with
  | [] => Ok []
  | x :: l' =>
      let* k := key x in
      let* kl := with_keys key l' in
      Ok ((k, x) :: kl)
  end.

Fixpoint insert_sorted {A : Type} (x : Z * A) (l : list (Z * A)) : list (Z * A) :=
  match l with
  | [] => [x]
  | y :: l' => if fst x <=? fst y then x :: y :: l' else y :: insert_sorted x l'
  end.

Definition sorted_by {A : Type} (key : A -> result Z) (l : list A) : result (list A) :=
  let* kl := with_keys key l in
  Ok (map snd (foldr insert_sorted [] kl)).

(** [lambda x: 9999 if x == 'all' else int(x)] *)
Definition period_order (x : string) : result Z :=
  if decide (x = "all") then Ok 9999 else py_int x.

(** [p in periods and periods[p]['is_meaningful']] *)
Definition meaningful_in (ps : list (string * PeriodEntry)) (p : string) : bool :=
  match od_get p ps with
  | Some entry => is_meaningful entry
  | None => false
  end.

(** The choice of the default period among the computed periods. *)
Definition select_default_period (ps : list (string * PeriodEntry)) : result (option string) :=
  if meaningful_in ps "30" then Ok (Some "30")
  else
    let* ordered := sorted_by period_order (map fst ps) in
    match List.find (meaningful_in ps) ordered with
    | Some period => Ok (Some period)
    | None =>
        if bool_decide (is_Some (od_get "all" ps)) then Ok (Some "all") else Ok None
    end.

(** [now] is the value of [datetime.now()], read when no report carries an
    end date. *)
Definition analyze_reports (now : datetime) (all_sorted_reports : list ParsedReport)
    (time_periods : option (list string)) : result StatsBundle :=
  let time_periods := default ["30"; "all"] time_periods in
  match all_sorted_reports with
  | [] =>
      let empty_stats := _calculate_stats_for_reports [] in
      Ok {| periods :=
              fold_left (fun ps period =>
                           od_set period {| pe_stats := empty_stats;
                                            is_meaningful := false;
                                            pe_days := None |} ps)
                        time_periods [];
            default_period := None |}
  | _ :: _ =>
      let max_end_date := default now (find_max_end_date all_sorted_reports) in
      let* ps := for_each (store_period all_sorted_reports max_end_date) time_periods [] in
      let* default_period := select_default_period ps in
      Ok {| periods := ps; default_period := Some default_period |}
  end.

(** ** The recommendation engine *)

(** The ['stats'] value of an entry built on the detailed path. *)
Record Snapshot : Type := {
  messages : Z;
  dkim_rate : float;
  spf_rate : float;
  alignment_rate : float;
  current_policy : string;
  current_pct : Z;
  current_sp : string;
  num_sources : Z;
  policy_results : gmap string Z
}.

(** The ['stats'] value of an entry: the accumulator's own dict of the
    domain on the no-data path, a snapshot on the detailed path. *)
Inductive EntryStats : Type :=
| RawDomainStats (ds : DomainStats)
| StatsSnapshot (snapshot : Snapshot).

Record DomainRecommendation : Type := {
  rec_domain : string;
  recommendations : list string;
  rec_stats : EntryStats
}.

(** [num / count if count > 0 else 0] *)
Definition rate (num count : Z) : float :=
  if 0 <? count then true_divide num count else 0%float.

Definition dkim_pass_rate (ds : DomainStats) : float := rate (ds_dkim_pass ds) (ds_count ds).
Definition spf_pass_rate (ds : DomainStats) : float := rate (ds_spf_pass ds) (ds_count ds).
Definition alignment_rate_of (ds : DomainStats) : float := rate (ds_fully_aligned ds) (ds_count ds).

(** [if days:] *)
Definition truthy_days (days : option Z) : option Z :=
  match days with
  | Some d => if d =? 0 then None else Some d
  | None => None
  end.

(** The description of the period in the INFO line. *)
Definition period_desc (stats : Stats) (days : option Z) : string :=
  match truthy_days days with
  | Some d => "the last " +:+ str_of_int d +:+ " days"
  | None =>
      match date_range_begin stats, date_range_end stats with
      | Some b, Some e =>
          "all available data (" +:+ strftime_ymd b +:+ " to " +:+ strftime_ymd e +:+ ")"
      | _, _ => "all available data"
      end
  end.

Definition loss_warning : string :=
  "MONITOR: Watch for legitimate email loss with current strict policy.".

(** The policy progression lines. *)
Definition policy_progression (ds : DomainStats) : list string :=
  let alignment_rate := alignment_rate_of ds in
  let current_policy := ds_current_policy ds in
  let current_pct := ds_current_pct ds in
  if decide (current_policy = "none") then
    if float_ge alignment_rate f0_95 then
      ["POLICY UPGRADE: Consider moving to 'p=quarantine' with pct=5 as alignment rate is excellent ("
         +:+ format_pct1 alignment_rate +:+ ")."]
    else if float_ge alignment_rate f0_85 then
      ["MONITOR: Continue with 'p=none' but work toward 'p=quarantine' as alignment rate is good ("
         +:+ format_pct1 alignment_rate +:+ ")."]
    else
      ["CAUTION: Maintain 'p=none' while improving alignment rate (currently "
         +:+ format_pct1 alignment_rate +:+ ").";
       "IMPROVEMENT NEEDED: Address authentication issues before considering enforcement policies."]
  else if decide (current_policy = "quarantine") then
    if float_ge alignment_rate f0_98 then
      if current_pct <? 100 then
        ["PERCENTAGE INCREASE: Increase pct value from " +:+ str_of_int current_pct
           +:+ "% to " +:+ str_of_int (Z.min (current_pct + 25) 100)
           +:+ "% as alignment is excellent."]
      else
        ["POLICY UPGRADE: Consider moving to 'p=reject' with pct=5 as alignment rate is excellent ("
           +:+ format_pct1 alignment_rate +:+ ")."]
    else if float_ge alignment_rate f0_9 then
      if current_pct <? 100 then
        ["PERCENTAGE INCREASE: Consider increasing pct value from " +:+ str_of_int current_pct
           +:+ "% to " +:+ str_of_int (Z.min (current_pct + 10) 100) +:+ "%."]
      else
        ["MAINTAIN: Keep 'p=quarantine' at 100% while monitoring for any issues."]
    else
      (if 25 <? current_pct then
         ["CAUTION: Consider decreasing pct value to reduce potential legitimate email loss."]
       else [])
      ++ ["IMPROVEMENT NEEDED: Work on authentication issues before increasing enforcement."]
  else if decide (current_policy = "reject") then
    if current_pct <? 100 then
      if float_ge alignment_rate f0_98 then
        ["PERCENTAGE INCREASE: Consider increasing pct value from " +:+ str_of_int current_pct
           +:+ "% to " +:+ str_of_int (Z.min (current_pct + 20) 100) +:+ "%."]
      else if float_ge alignment_rate f0_95 then
        ["PERCENTAGE INCREASE: Consider a modest increase from " +:+ str_of_int current_pct
           +:+ "% to " +:+ str_of_int (Z.min (current_pct + 10) 100) +:+ "%."]
      else
        ["CAUTION: Maintain current pct=" +:+ str_of_int current_pct
           +:+ "% until alignment improves (" +:+ format_pct1 alignment_rate +:+ ")."]
    else
      "OPTIMAL: DMARC policy is at maximum enforcement (p=reject, pct=100)."
      :: (if float_lt alignment_rate f0_98 then [loss_warning] else [])
  else [].

(** The authentication lines and the source diversity line. *)
Definition authentication_lines (ds : DomainStats) : list string :=
  let current_policy := ds_current_policy ds in
  let num_sources := Z.of_nat (size (ds_sending_sources ds)) in
  (if float_lt (dkim_pass_rate ds) f0_9 then
     ("DKIM ISSUE: Improve DKIM signing (currently "
        +:+ format_pct1 (dkim_pass_rate ds) +:+ " pass rate).")
     :: (if float_lt (dkim_pass_rate ds) f0_7 then
           ["CRITICAL: DKIM failures are significant and require immediate attention."]
         else [])
   else [])
  ++ (if float_lt (spf_pass_rate ds) f0_9 then
        ("SPF ISSUE: Improve SPF alignment (currently "
           +:+ format_pct1 (spf_pass_rate ds) +:+ " pass rate).")
        :: (if float_lt (spf_pass_rate ds) f0_7 then
              ["CRITICAL: SPF failures are significant and require immediate attention."]
            else [])
      else [])
  ++ (if bool_decide (ds_current_sp ds ≠ "reject") && bool_decide (current_policy ≠ "none") then
        ["SUBDOMAIN POLICY: Consider setting 'sp=reject' to protect against subdomain spoofing."]
      else [])
  ++ (if (10 <? num_sources) && bool_decide (current_policy ≠ "none")
         && (50 <? ds_current_pct ds) then
        ["DIVERSITY WARNING: You have " +:+ str_of_int num_sources
           +:+ " sending sources, which increases risk during policy enforcement."]
      else []).

(** The body of [for domain, domain_stats in stats['domain_stats'].items():]. *)
Definition recommend_domain (stats : Stats) (days : option Z)
    (domain : string) (ds : DomainStats) : DomainRecommendation :=
  if ds_count ds =? 0 then
    let desc :=
      match truthy_days days with
      | Some d => "the last " +:+ str_of_int d +:+ " days"
      | None => "the entire analyzed period"
      end in
    {| rec_domain := domain;
       recommendations :=
         ["No data available for direct messages from " +:+ domain +:+ " in " +:+ desc +:+ "."];
       rec_stats := RawDomainStats ds |}
  else
    {| rec_domain := domain;
       recommendations :=
         ("INFO: Recommendations based on " +:+ period_desc stats days +:+ ".")
         :: policy_progression ds ++ authentication_lines ds;
       rec_stats := StatsSnapshot {|
         messages := ds_count ds;
         dkim_rate := PrimFloat.mul (dkim_pass_rate ds) 100%float;
         spf_rate := PrimFloat.mul (spf_pass_rate ds) 100%float;
         alignment_rate := PrimFloat.mul (alignment_rate_of ds) 100%float;
         current_policy := ds_current_policy ds;
         current_pct := ds_current_pct ds;
         current_sp := ds_current_sp ds;
         num_sources := Z.of_nat (size (ds_sending_sources ds));
         policy_results := ds_policy_applied ds
       |} |}.

(** The period key the recommendations are computed for: the requested
    one, else the bundle's default, else ['all']; ['all'] again when that
    key is not among the periods. *)
Definition resolve_period_key (stats_bundle : StatsBundle) (period_key : option string) : string :=
  let period_key :=
    match period_key with
    | Some k => Some k
    | None => default (Some "all") (default_period stats_bundle)
    end in
  match period_key with
  | Some k => if bool_decide (is_Some (od_get k (periods stats_bundle))) then k else "all"
  | None => "all"
  end.

Definition generate_policy_recommendations (stats_bundle : StatsBundle)
    (period_key : option string) : result (list DomainRecommendation) :=
  let period_key := resolve_period_key stats_bundle period_key in
  match od_get period_key (periods stats_bundle) with
  | None => Raise (KeyError period_key)
  | Some period_data =>
      let stats := pe_stats period_data in
      let days := default None (pe_days period_data) in
      Ok (map (fun '(domain, ds) => recommend_domain stats days domain ds)
              (domain_stats stats))
  end.

(** ** Vocabulary of the properties *)

Definition sumZ {A : Type} (f : A -> Z) (l : list A) : Z :=
  foldr (fun x acc => f x + acc) 0 l.

(** Every record of every report, in the order the accumulator meets them. *)
Definition all_records (reports : list ParsedReport) : list DmarcRecord :=
  concat (map records reports).

Definition nonneg_counts (reports : list ParsedReport) : Prop :=
  Forall (fun r => 0 <= msg_count_of r) (all_records reports).

(** The sum of [count] over the domains of [domain_stats]. *)
Definition direct_total (stats : Stats) : Z :=
  sumZ (fun kv => ds_count kv.2) (domain_stats stats).

(** A record is direct when its [header_from] is the domain under report. *)
Definition direct_in (report : ParsedReport) (r : DmarcRecord) : Prop :=
  header_from_of r = domain_of report.

Definition all_direct (reports : list ParsedReport) : Prop :=
  Forall (fun report => Forall (direct_in report) (records report)) reports.

(** Every record that is not direct has a message count of zero. *)
Definition indirect_are_empty (reports : list ParsedReport) : Prop :=
  Forall (fun report =>
            Forall (fun r => direct_in report r \/ msg_count_of r = 0) (records report))
         reports.

(** The number of checks (DKIM, SPF) a record fails. *)
Definition failing_checks (r : DmarcRecord) : Z :=
  (if dkim_ok r then 0 else 1) + (if spf_ok r then 0 else 1).

(** What one record adds to the failures of the claimed domain [d]: its
    message count once per failed check. *)
Definition failure_share (d : string) (r : DmarcRecord) : Z :=
  if decide (header_from_of r = d) then msg_count_of r * failing_checks r else 0.

(** The failures charged to the claimed domain [d] by all the records. *)
Definition failures_of (d : string) (reports : list ParsedReport) : Z :=
  sumZ (failure_share d) (all_records reports).

(** The messages of a record that go to the entry of [domain]. *)
Definition direct_count (domain : string) (r : DmarcRecord) : Z :=
  if decide (header_from_of r = domain) then msg_count_of r else 0.

(** The messages of a record that reach no entry of [domain_stats]. *)
Definition indirect_count (domain : string) (r : DmarcRecord) : Z :=
  if decide (header_from_of r = domain) then 0 else msg_count_of r.

(** Pass and fail partition the count of an entry. *)
Definition balanced_domain (ds : DomainStats) : Prop :=
  ds_dkim_pass ds + ds_dkim_fail ds = ds_count ds
  /\ ds_spf_pass ds + ds_spf_fail ds = ds_count ds.

Definition balanced_source (ip : SourceStats) : Prop :=
  ip_dkim_pass ip + ip_dkim_fail ip = ip_count ip
  /\ ip_spf_pass ip + ip_spf_fail ip = ip_count ip.

Definition balanced (stats : Stats) : Prop :=
  Forall (fun kv => balanced_domain kv.2) (domain_stats stats)
  /\ Forall (fun kv => balanced_source kv.2) (ips stats)
  /\ dkim_overall_pass stats + dkim_overall_fail stats = total_messages stats
  /\ spf_overall_pass stats + spf_overall_fail stats = total_messages stats.

(** The aligned messages of an entry are among its counted messages and
    among those that pass a check. *)
Definition aligned_domain (ds : DomainStats) : Prop :=
  ds_fully_aligned ds <= ds_count ds
  /\ ds_fully_aligned ds <= ds_dkim_pass ds + ds_spf_pass ds.

Definition aligned_source (ip : SourceStats) : Prop :=
  ip_fully_aligned ip <= ip_count ip
  /\ ip_fully_aligned ip <= ip_dkim_pass ip + ip_spf_pass ip.

Definition aligned (stats : Stats) : Prop :=
  Forall (fun kv => aligned_domain kv.2) (domain_stats stats)
  /\ Forall (fun kv => aligned_source kv.2) (ips stats).

Definition end_date_of (r : ParsedReport) : option datetime :=
  md_end_date_dt (metadata r).

(** [anchor] is the latest end date among the reports that carry one. *)
Definition latest_end (anchor : datetime) (reports : list ParsedReport) : Prop :=
  Exists (fun r => end_date_of r = Some anchor) reports
  /\ Forall (fun r => match end_date_of r with
                      | Some e => e <= anchor
                      | None => True
                      end) reports.

(** The report ends in the window of [days] days that closes at [anchor],
    both bounds included. *)
Definition in_window (anchor : datetime) (days : Z) (r : ParsedReport) : bool :=
  match end_date_of r with
  | Some e => bool_decide (anchor - 86400 * days <= e /\ e <= anchor)
  | None => false
  end.

(** A period key of [TIME_PERIODS] that stands for [days] days. *)
Definition numeric_period (k : string) (days : Z) : Prop :=
  od_get k TIME_PERIODS = Some (Some days).

Definition recognised (k : string) : Prop := is_Some (od_get k TIME_PERIODS).

Definition has_line_starting (tag : string) (lines : list string) : Prop :=
  Exists (fun line => String.prefix tag line = true) lines.

(** *** Sample inputs *)

Definition mk_record (ip : string) (n : Z) (from dkim spf disp : string) : DmarcRecord := {|
  rec_source_ip := Some ip; rec_count := Some n; rec_header_from := Some from;
  rec_dkim_result := Some dkim; rec_spf_result := Some spf;
  rec_disposition := Some disp
|}.

Definition mk_report (org : string) (begin_day end_day : Z) (dom pol : string)
    (pct : Z) (recs : list DmarcRecord) : ParsedReport := {|
  metadata := {| md_org_name := Some org;
                 md_begin_date_dt := Some (86400 * begin_day);
                 md_end_date_dt := Some (86400 * end_day) |};
  policy_published := {| pp_domain := Some dom; pp_policy := Some pol;
                         pp_subpolicy := None; pp_pct := Some pct |};
  records := recs
|}.

(** A report on example.com, 100 direct messages of which 96 pass DKIM, and
    5 messages that claim another domain. *)
Definition report_monitoring : ParsedReport :=
  mk_report "google.com" 19000 19001 "example.com" "none" 100
    [mk_record "192.0.2.1" 96 "example.com" "pass" "fail" "none";
     mk_record "192.0.2.2" 4 "example.com" "fail" "FAIL" "none";
     mk_record "198.51.100.7" 5 "other.org" "fail" "fail" "reject"].

(** A later report on the same domain, now at [p=reject], 99 of 100 aligned. *)
Definition report_enforcing : ParsedReport :=
  mk_report "yahoo.com" 19060 19061 "example.com" "reject" 100
    [mk_record "192.0.2.1" 99 "example.com" "Pass" "pass" "none";
     mk_record "192.0.2.9" 1 "example.com" "fail" "fail" "reject"].

(** A report that carries no record. *)
Definition report_silent : ParsedReport :=
  mk_report "example.net" 19100 19101 "example.com" "reject" 100 [].

(** A report whose only record claims another domain and counts no message. *)
Definition report_zero_indirect : ParsedReport :=
  mk_report "google.com" 19000 19001 "example.com" "none" 100
    [mk_record "198.51.100.7" 0 "other.org" "fail" "fail" "none"].

(** A report whose only record claims another domain. *)
Definition report_spoofed : ParsedReport :=
  mk_report "google.com" 19000 19001 "example.com" "none" 100
    [mk_record "198.51.100.7" 5 "other.org" "fail" "fail" "reject"].

Definition entry_with (m : bool) : PeriodEntry :=
  {| pe_stats := new_stats; is_meaningful := m; pe_days := None |}.

(** The periods of the specification's example: 30 days without data, 90
    days and all data with some. *)
Definition periods_30_empty : list (string * PeriodEntry) :=
  [("30", entry_with false); ("90", entry_with true); ("all", entry_with true)].

(** Three reports that end 100 days, 40 days and 0 days before the latest. *)
Definition reports_three : list ParsedReport :=
  [report_monitoring; report_enforcing; report_silent].

Definition no_bundle : StatsBundle := {| periods := []; default_period := None |}.

Definition bundle_of (r : result StatsBundle) : StatsBundle :=
  match r with
  | Ok b => b
  | Raise _ => no_bundle
  end.

Definition bundle_three : StatsBundle :=
  bundle_of (analyze_reports 0 reports_three (Some ["30"; "90"; "all"])).

(** The 90 days of [bundle_three]: [example.com] at [p=reject], pct 100,
    99 of 100 messages aligned. *)
Definition period_90 : PeriodEntry :=
  default (entry_with false) (od_get "90" (periods bundle_three)).

(** A bundle computed for 30 days only. *)
Definition bundle_30_only : StatsBundle :=
  bundle_of (analyze_reports 0 [report_monitoring] (Some ["30"])).

(** A bundle in which [example.com] received no direct message. *)
Definition bundle_spoofed : StatsBundle :=
  bundle_of (analyze_reports 0 [report_spoofed] (Some ["30"; "all"])).

(** What the rules of the policy progression promise of the lines of a
    domain: an upgrade for [p=none] with an alignment rate of at least 0.95;
    for [p=reject] at pct 100 the optimal line, and the warning about the
    loss of legitimate mail exactly when the alignment rate is below 0.98. *)
Definition progression_rules (ds : DomainStats) (lines : list string) : Prop :=
  (ds_current_policy ds = "none" ->
   float_ge (alignment_rate_of ds) f0_95 = true ->
   has_line_starting "POLICY UPGRADE:" lines)
  /\ (ds_current_policy ds = "reject" ->
      ds_current_pct ds = 100 ->
      has_line_starting "OPTIMAL:" lines
      /\ (loss_warning ∈ lines <-> float_lt (alignment_rate_of ds) f0_98 = true)).

(** Membership of the warning in a list of other lines is refuted line by
    line. *)
Ltac not_the_warning H :=
  repeat match type of H with
         | _ ∈ (_ ++ _)%list => apply elem_of_app in H as [H|H]
         | _ ∈ (if ?b then _ else _) => destruct b
         | _ ∈ _ :: _ => apply elem_of_cons in H as [H|H]
         | _ ∈ [] => by inversion H
         | loss_warning = _ => by (unfold loss_warning in H; simpl in H)
         end.

(** ** Further vocabulary *)

(** The sum of the counts of a histogram. *)
Definition hist_total (h : gmap string Z) : Z :=
  map_fold (fun _ n acc => n + acc) 0 h.

(** The published policy of a report as the accumulator stores it: the
    policy, the percentage and the subdomain policy, with their defaults. *)
Definition published_policy (report : ParsedReport) : string * Z * string :=
  let policy := policy_published report in
  let p := default "none" (pp_policy policy) in
  (p, default 100 (pp_pct policy), default p (pp_subpolicy policy)).

Definition current_policy_of (ds : DomainStats) : string * Z * string :=
  (ds_current_policy ds, ds_current_pct ds, ds_current_sp ds).

(** Every message of an entry that passes a check is an aligned message. *)
Definition passes_aligned_domain (ds : DomainStats) : Prop :=
  ds_dkim_pass ds <= ds_fully_aligned ds /\ ds_spf_pass ds <= ds_fully_aligned ds.

Definition passes_aligned_source (ip : SourceStats) : Prop :=
  ip_dkim_pass ip <= ip_fully_aligned ip /\ ip_spf_pass ip <= ip_fully_aligned ip.

Definition passes_aligned (stats : Stats) : Prop :=
  Forall (fun kv => passes_aligned_domain kv.2) (domain_stats stats)
  /\ Forall (fun kv => passes_aligned_source kv.2) (ips stats).

(** The histograms of the statistics add up to the counts they detail. *)
Definition histograms_add_up (stats : Stats) : Prop :=
  hist_total (disposition_overall stats) = total_messages stats
  /\ hist_total (failures_by_domain stats)
     = dkim_overall_fail stats + spf_overall_fail stats
  /\ Forall (fun kv => hist_total (ds_policy_applied kv.2) = ds_count kv.2)
            (domain_stats stats)
  /\ Forall (fun kv => hist_total (ip_disposition kv.2) = ip_count kv.2) (ips stats).

(** The earliest begin date among the reports that carry one. *)
Definition earliest_begin (b : datetime) (reports : list ParsedReport) : Prop :=
  Exists (fun r => md_begin_date_dt (metadata r) = Some b) reports
  /\ Forall (fun r => match md_begin_date_dt (metadata r) with
                      | Some b' => b <= b'
                      | None => True
                      end) reports.

(** The count of the entry of [d] in [domain_stats], 0 without entry. *)
Definition domain_count (d : string) (stats : Stats) : Z :=
  match od_get d (domain_stats stats) with
  | Some ds => ds_count ds
  | None => 0
  end.

(** The counters of the statistics: everything but the published policies
    and the order of the dictionaries. *)
Definition same_counters (s1 s2 : Stats) : Prop :=
  total_messages s1 = total_messages s2
  /\ dkim_overall_pass s1 = dkim_overall_pass s2
  /\ dkim_overall_fail s1 = dkim_overall_fail s2
  /\ spf_overall_pass s1 = spf_overall_pass s2
  /\ spf_overall_fail s1 = spf_overall_fail s2
  /\ (forall d, hist_get (failures_by_domain s1) d = hist_get (failures_by_domain s2) d)
  /\ (forall d, hist_get (disposition_overall s1) d = hist_get (disposition_overall s2) d)
  /\ (forall d, domain_count d s1 = domain_count d s2).

(** What the observed date range is for a list of reports: the latest end
    date and the earliest begin date, [None] when no report carries one. *)
Definition observed_end (reports : list ParsedReport) (e : option datetime) : Prop :=
  match e with
  | Some e => latest_end e reports
  | None => Forall (fun r => end_date_of r = None) reports
  end.

Definition observed_begin (reports : list ParsedReport) (b : option datetime) : Prop :=
  match b with
  | Some b => earliest_begin b reports
  | None => Forall (fun r => md_begin_date_dt (metadata r) = None) reports
  end.

(** The requested period keys, ['30'] and ['all'] when none is given. *)
Definition requested (time_periods : option (list string)) : list string :=
  default ["30"; "all"] time_periods.


(** The period [k'] reaches at least as far back as the numeric period of
    [d] days. *)
Definition reaches_back (d : Z) (k' : string) : Prop :=
  k' = "all" \/ exists d', numeric_period k' d' /\ d <= d'.

(** The category tags of the lines of the detailed path, the INFO line
    apart. *)
Definition category_tags : list string :=
  ["CAUTION:"; "CRITICAL:"; "POLICY UPGRADE:"; "PERCENTAGE INCREASE:"; "MONITOR:";
   "MAINTAIN:"; "OPTIMAL:"; "DKIM ISSUE:"; "SPF ISSUE:"; "SUBDOMAIN POLICY:";
   "DIVERSITY WARNING:"; "IMPROVEMENT NEEDED:"].

Definition tagged (line : string) : bool :=
  existsb (fun tag => String.prefix tag line) category_tags.

(** The shape of the lines of an entry: the single no-data line beside the
    accumulator's statistics, or the INFO line followed by lines that each
    start with a category tag beside a snapshot. *)
Definition well_tagged (entry : DomainRecommendation) : Prop :=
  match rec_stats entry with
  | RawDomainStats _ =>
      exists line, recommendations entry = [line]
                   /\ String.prefix "No data available" line = true
  | StatsSnapshot _ =>
      exists info rest, recommendations entry = info :: rest
                        /\ String.prefix "INFO:" info = true
                        /\ Forall (fun line => tagged line = true) rest
  end.

(** No line about the subdomain policy or the diversity of the sources. *)
Definition no_enforcement_advice (lines : list string) : Prop :=
  Forall (fun line => String.prefix "SUBDOMAIN POLICY:" line = false
                      /\ String.prefix "DIVERSITY WARNING:" line = false) lines.

(** A goal [Forall P lines] over lines built by the rules is split along
    the rules; [tac] closes the goal of each line. *)
Ltac each_line tac :=
  repeat match goal with
         | |- Forall _ (_ ++ _)%list => apply Forall_app; split
         | |- Forall _ (if ?b then _ else _) => destruct b
         | |- Forall _ (_ :: _) => constructor; [tac|]
         | |- Forall _ [] => constructor
         end.

(** The 30 days of [bundle_30_only]: [example.com] at [p=none]. *)
Definition period_30_only : PeriodEntry :=
  default (entry_with false) (od_get "30" (periods bundle_30_only)).

(** A CRITICAL line about a check comes with the ISSUE line of that check. *)
Definition critical_with_issue (lines : list string) : Prop :=
  (has_line_starting "CRITICAL: DKIM" lines -> has_line_starting "DKIM ISSUE:" lines)
  /\ (has_line_starting "CRITICAL: SPF" lines -> has_line_starting "SPF ISSUE:" lines).

(** ** Grouping the sources by organization (utils/helpers.py) *)

(** [ORG_PATTERNS], in the order of the dict. *)
Definition ORG_PATTERNS : list (string * string) :=
  [("google", "Google"); ("gmail", "Google"); ("googlemail", "Google");
   ("amazon", "Amazon"); ("aws", "Amazon AWS"); ("microsoft", "Microsoft");
   ("outlook", "Microsoft"); ("office365", "Microsoft Office 365");
   ("sendgrid", "SendGrid"); ("mailchimp", "Mailchimp"); ("sparkpost", "SparkPost");
   ("postmark", "Postmark"); ("mailgun", "Mailgun"); ("yandex", "Yandex");
   ("yahoo", "Yahoo"); ("aol", "AOL"); ("protonmail", "ProtonMail"); ("zoho", "Zoho");
   ("fastmail", "Fastmail"); ("comcast", "Comcast"); ("verizon", "Verizon");
   ("att", "AT&T"); ("cloudflare", "Cloudflare"); ("nationbuilder", "NationBuilder");
   ("nb-mail", "NationBuilder"); ("nationsend", "NationBuilder");
   ("nationbuilder.com", "NationBuilder")].

(** [pattern in s] *)
Fixpoint contains (pattern s : string) : bool :=
  String.prefix pattern s
  || match s with
     | EmptyString => false
     | String _ s' => contains pattern s'
     end.

(** [s.split('.')] *)
Fixpoint split_dots (s : string) : list string :=
  match s with
  | EmptyString => [EmptyString]
  | String c s' =>
      if Ascii.eqb c "."%char then EmptyString :: split_dots s'
      else match split_dots s' with
           | part :: parts => String c part :: parts
           | [] => [String c EmptyString]
           end
  end.

Definition upper_ascii (c : ascii) : ascii :=
  let n := N_of_ascii c in
  if ((97 <=? n) && (n <=? 122))%N then ascii_of_N (n - 32) else c.

(** [s.capitalize()] on ASCII letters. *)
Definition capitalize (s : string) : string :=
  match s with
  | EmptyString => EmptyString
  | String c s' => String (upper_ascii c) (lower s')
  end.

(** The organization of a source from the host name that the reverse
    lookup gave, [None] when it gave none or was not asked.  Host names are
    ASCII, as the lookup returns them. *)
Definition org_name_of (hostname : option string) : string :=
  match hostname with
  | None | Some EmptyString => "Unknown"
  | Some hostname =>
      let parts := split_dots hostname in
      let hostname_lower := lower hostname in
      let org_name :=
        match List.find (fun pn => contains pn.1 hostname_lower) ORG_PATTERNS with
        | Some (_, name) => name
        | None => "Unknown"
        end in
      if bool_decide (org_name = "Unknown") && (2 <=? Z.of_nat (length parts))
      then capitalize (default "" (rev parts !! 1%nat))
      else org_name
  end.

(** One group of [ip_groups]. *)
Record GroupStats : Type := {
  g_ips : list string;
  g_count : Z;
  g_domains : gset string;
  g_dkim_pass : Z;
  g_dkim_fail : Z;
  g_spf_pass : Z;
  g_spf_fail : Z;
  g_fully_aligned : Z;
  g_dispositions : gmap string Z
}.

Definition new_group : GroupStats := {|
  g_ips := []; g_count := 0; g_domains := ∅;
  g_dkim_pass := 0; g_dkim_fail := 0; g_spf_pass := 0; g_spf_fail := 0;
  g_fully_aligned := 0; g_dispositions := ∅
|}.

(** [for disp, count in stats['disposition'].items(): h[disp] += count] *)
Definition add_dispositions (src h : gmap string Z) : gmap string Z :=
  map_fold (fun disp count acc => hist_add disp count acc) h src.

(** The statements that add one source to its group. *)
Definition add_to_group (ip : string) (stats : SourceStats) (g : GroupStats) : GroupStats := {|
  g_ips := g_ips g ++ [ip];
  g_count := g_count g + ip_count stats;
  g_domains := g_domains g ∪ ip_domains stats;
  g_dkim_pass := g_dkim_pass g + ip_dkim_pass stats;
  g_dkim_fail := g_dkim_fail g + ip_dkim_fail stats;
  g_spf_pass := g_spf_pass g + ip_spf_pass stats;
  g_spf_fail := g_spf_fail g + ip_spf_fail stats;
  g_fully_aligned := g_fully_aligned g + ip_fully_aligned stats;
  g_dispositions := add_dispositions (ip_disposition stats) (g_dispositions g)
|}.

(** The host name the loop works with: [resolve_ip(ip)] when [resolve] is
    set, else [None].  [resolve_ip] stands for the reverse DNS lookup, which
    answers a host name or [None]. *)
Definition hostname_of (resolve_ip : string -> option string) (resolve : bool)
    (ip : string) : option string :=
  if resolve then resolve_ip ip else None.

Definition group_ips_by_source (resolve_ip : string -> option string)
    (ips_stats : list (string * SourceStats)) (resolve : bool)
  : list (string * GroupStats) :=
  fold_left (fun ip_groups '(ip, stats) =>
               od_update (org_name_of (hostname_of resolve_ip resolve ip))
                         (add_to_group ip stats) new_group ip_groups)
            ips_stats [].

(** A lookup that knows three addresses. *)
Definition sample_dns (ip : string) : option string :=
  if decide (ip = "192.0.2.1") then Some "mail-sor-f41.google.com"
  else if decide (ip = "192.0.2.9") then Some "ec2-192-0-2-9.compute-1.amazonaws.com"
  else if decide (ip = "198.51.100.7") then Some "mx7.Example.org"
  else None.

(** The addresses of all the groups, group after group. *)
Definition grouped_ips (groups : list (string * GroupStats)) : list string :=
  concat (map (fun kv => g_ips kv.2) groups).

(** ** The periods of the HTML report (reporting/html_report.py) *)

(** The loop of [generate_period_content] that counts the messages that
    passed DMARC and those that failed it: [(passed_either, failed_both)]. *)
Definition dmarc_summary (display_stats : Stats) : Z * Z :=
  fold_left (fun '(passed_either, failed_both) '(ip, ip_stats) =>
               (passed_either + ip_fully_aligned ip_stats,
                failed_both + (ip_count ip_stats - ip_fully_aligned ip_stats)))
            (ips display_stats) (0, 0).

(** [meaningful_periods] of [generate_html_report], the periods that get a
    tab: the available periods that are meaningful or are ['all']; without
    any, ['all'] when it is available, else the first available period. *)
Definition shown_periods (stats_bundle : StatsBundle) : list string :=
  let available_periods := map fst (periods stats_bundle) in
  let meaningful_periods :=
    List.filter (fun period => meaningful_in (periods stats_bundle) period
                               || bool_decide (period = "all"))
                available_periods in
  match meaningful_periods with
  | [] => if bool_decide ("all" ∈ available_periods) then ["all"]
          else take 1 available_periods
  | _ :: _ => meaningful_periods
  end.

(** [default_period] of [generate_html_report], the period shown first: the
    default of the bundle (['all'] without one) when it has a tab, else the
    first tab, else ['all']. *)
Definition shown_default (stats_bundle : StatsBundle) : string :=
  let meaningful_periods := shown_periods stats_bundle in
  let first := default "all" (head meaningful_periods) in
  match default (Some "all") (default_period stats_bundle) with
  | Some k => if bool_decide (k ∈ meaningful_periods) then k else first
  | None => first
  end.

(** ** The preparation of the reports (cli.py) *)

(** [datetime.min], 0001-01-01T00:00:00. *)
Definition datetime_min : datetime := -62135596800.

(** [main] gives a report without begin date the begin date
    [datetime.min]. *)
Definition with_begin_date (report : ParsedReport) : ParsedReport := {|
  metadata := {|
    md_org_name := md_org_name (metadata report);
    md_begin_date_dt :=
      Some (default datetime_min (md_begin_date_dt (metadata report)));
    md_end_date_dt := md_end_date_dt (metadata report)
  |};
  policy_published := policy_published report;
  records := records report
|}.

(** [lambda r: r['metadata'].get('begin_date_dt', datetime.min)] *)
Definition begin_key (r : ParsedReport) : Z :=
  default datetime_min (md_begin_date_dt (metadata r)).

(** [reports.sort(key=...)]: ascending, equal keys staying in their order. *)
Definition sort_reports (reports : list ParsedReport) : list ParsedReport :=
  map snd (foldr insert_sorted [] (map (fun r => (begin_key r, r)) reports)).

(** The list that [main] hands to [analyze_reports]. *)
Definition prepare_reports (reports : list ParsedReport) : list ParsedReport :=
  sort_reports (map with_begin_date reports).

(** A report whose begin date is not known. *)
Definition report_undated : ParsedReport := {|
  metadata := {| md_org_name := Some "example.net";
                 md_begin_date_dt := None; md_end_date_dt := None |};
  policy_published := {| pp_domain := Some "example.com"; pp_policy := Some "quarantine";
                         pp_subpolicy := None; pp_pct := Some 50 |};
  records := [mk_record "192.0.2.1" 7 "example.com" "pass" "pass" "none"]
|}.

(** ** Ordered dictionaries *)

Section ordered_dict.
Context {V : Type}.
Implicit Types (d : list (string * V)) (k : string) (v : V).

Lemma od_get_set_eq k v d : od_get k (od_set k v d) = Some v.
Proof.
  induction d as [|[k' v'] d IH]; simpl.
  - by rewrite decide_True.
  - destruct (decide (k' = k)) as [->|Hne]; simpl.
    + by rewrite decide_True.
    + by rewrite decide_False.
Qed.

Lemma od_get_set_ne k k' v d : k <> k' -> od_get k' (od_set k v d) = od_get k' d.
Proof.
  intros Hne. induction d as [|[k0 v0] d IH]; simpl.
  - by rewrite decide_False.
  - destruct (decide (k0 = k)) as [->|Hne0]; simpl.
    + by rewrite !decide_False.
    + by rewrite IH.
Qed.

Lemma od_get_Some_elem k v d : od_get k d = Some v -> (k, v) ∈ d.
Proof.
  induction d as [|[k' v'] d IH]; simpl; [done|].
  destruct (decide (k' = k)) as [->|Hne].
  - intros [= ->]. left.
  - intros H. right. auto.
Qed.

Lemma od_get_is_Some k d : is_Some (od_get k d) <-> k ∈ map fst d.
Proof.
  induction d as [|[k' v'] d IH]; simpl.
  - split; [intros [? [=]] | intros H; inversion H].
  - destruct (decide (k' = k)) as [->|Hne].
    + split; [intros _; left | eauto].
    + rewrite IH. split; [by right|].
      intros H. inversion H; subst; [done | assumption].
Qed.

(** Every entry after [od_set] is an old entry or the new one. *)
Lemma od_set_elem k v k' v' d :
  (k', v') ∈ od_set k v d -> (k' = k /\ v' = v) \/ (k', v') ∈ d.
Proof.
  induction d as [|[k0 v0] d IH]; simpl.
  - intros H. apply list_elem_of_singleton in H as [= -> ->]. by left.
  - destruct (decide (k0 = k)) as [->|Hne]; intros H.
    + apply elem_of_cons in H as [[= -> ->]|H]; [by left|].
      right. by right.
    + apply elem_of_cons in H as [[= -> ->]|H]; [right; left|].
      destruct (IH H) as [?|?]; [by left|]. right. by right.
Qed.

(** A property of the values that the factory value has and the update
    keeps, holds of every value after [od_update]. *)
Lemma od_update_Forall (P : V -> Prop) k (f : V -> V) (dflt : V) d :
  P dflt -> (forall v, P v -> P (f v)) ->
  Forall (fun kv => P kv.2) d ->
  Forall (fun kv => P kv.2) (od_update k f dflt d).
Proof.
  intros Hd Hf Hall. apply Forall_forall. intros [k' v'] Hin.
  apply od_set_elem in Hin as [[-> ->]|Hin].
  - simpl. apply Hf. destruct (od_get k d) as [v0|] eqn:Hget; simpl; [|done].
    apply od_get_Some_elem in Hget.
    by apply (proj1 (Forall_forall _ _) Hall (k, v0)).
  - by apply (proj1 (Forall_forall _ _) Hall (k', v')).
Qed.

(** The sum of a measure of the values after [od_set]. *)
Lemma sumZ_od_set (g : V -> Z) k v d :
  sumZ (fun kv => g kv.2) (od_set k v d)
  = sumZ (fun kv => g kv.2) d + g v
    - match od_get k d with Some v0 => g v0 | None => 0 end.
Proof.
  induction d as [|[k' v'] d IH]; simpl; [lia|].
  destruct (decide (k' = k)) as [->|Hne]; simpl; [lia|].
  rewrite IH. lia.
Qed.

Lemma sumZ_od_update (g : V -> Z) k (f : V -> V) (dflt : V) d :
  g dflt = 0 ->
  sumZ (fun kv => g kv.2) (od_update k f dflt d)
  = sumZ (fun kv => g kv.2) d
    + g (f (default dflt (od_get k d))) - g (default dflt (od_get k d)).
Proof.
  intros H0. unfold od_update. rewrite sumZ_od_set.
  destruct (od_get k d); simpl; lia.
Qed.
End ordered_dict.

Lemma sumZ_app {A : Type} (f : A -> Z) (l1 l2 : list A) :
  sumZ f (l1 ++ l2) = sumZ f l1 + sumZ f l2.
Proof. induction l1 as [|x l1 IH]; simpl; lia. Qed.

Lemma sumZ_nonneg {A : Type} (f : A -> Z) (l : list A) :
  Forall (fun x => 0 <= f x) l -> 0 <= sumZ f l.
Proof. induction 1; simpl; lia. Qed.

Lemma sumZ_zero_iff {A : Type} (f : A -> Z) (l : list A) :
  Forall (fun x => 0 <= f x) l ->
  sumZ f l = 0 <-> Forall (fun x => f x = 0) l.
Proof.
  induction 1 as [|x l Hx Hl IH]; simpl.
  - split; [constructor | done].
  - pose proof (sumZ_nonneg f l Hl). split.
    + intros H0. constructor; [lia|]. apply IH. lia.
    + intros Hall. inversion Hall; subst. apply IH in H3. lia.
Qed.

Lemma hist_get_add (h : gmap string Z) (k k' : string) (n : Z) :
  hist_get (hist_add k n h) k' = hist_get h k' + (if decide (k = k') then n else 0).
Proof.
  unfold hist_add, hist_get at 1. destruct (decide (k = k')) as [->|Hne].
  - rewrite lookup_insert_eq. done.
  - rewrite lookup_insert_ne by done. unfold hist_get. lia.
Qed.

Lemma sumZ_concat {A : Type} (f : A -> Z) (ls : list (list A)) :
  sumZ f (concat ls) = sumZ (sumZ f) ls.
Proof. induction ls as [|l ls IH]; simpl; [done|]. by rewrite sumZ_app, IH. Qed.

Lemma sumZ_map {A B : Type} (f : B -> Z) (g : A -> B) (l : list A) :
  sumZ f (map g l) = sumZ (fun x => f (g x)) l.
Proof. induction l as [|x l IH]; simpl; [done|]. by rewrite IH. Qed.

Lemma sumZ_all_records (f : DmarcRecord -> Z) (reports : list ParsedReport) :
  sumZ (fun report => sumZ f (records report)) reports = sumZ f (all_records reports).
Proof. unfold all_records. by rewrite sumZ_concat, sumZ_map. Qed.

Lemma Forall_all_records (P : DmarcRecord -> Prop) (reports : list ParsedReport) :
  Forall P (all_records reports) <-> Forall (fun report => Forall P (records report)) reports.
Proof.
  unfold all_records. induction reports as [|report reports IH]; simpl.
  - split; constructor.
  - rewrite Forall_app, IH. split.
    + intros [? ?]. by constructor.
    + intros H. by inversion H.
Qed.

(** ** The accumulator as a fold *)

(** A quantity that opening a report leaves alone and to which every record
    adds its contribution is, at the end, the sum of the contributions. *)
Section additive_measure.
Variable measure : Stats -> Z.
Variable contribution : string -> DmarcRecord -> Z.
Hypothesis measure_open :
  forall stats report, measure (open_report stats report) = measure stats.
Hypothesis measure_record :
  forall domain stats r,
    measure (add_record domain stats r) = measure stats + contribution domain r.

Lemma measure_records domain rs stats :
  measure (fold_left (add_record domain) rs stats)
  = measure stats + sumZ (contribution domain) rs.
Proof.
  revert stats. induction rs as [|r rs IH]; intros stats; simpl; [lia|].
  rewrite IH, measure_record. lia.
Qed.

Lemma measure_reports reports stats :
  measure (fold_left add_report reports stats)
  = measure stats
    + sumZ (fun report => sumZ (contribution (domain_of report)) (records report)) reports.
Proof.
  revert stats. induction reports as [|report reports IH]; intros stats; simpl; [lia|].
  rewrite IH. unfold add_report. rewrite measure_records, measure_open. lia.
Qed.
End additive_measure.

(** A property of the statistics that opening a report keeps and that every
    record satisfying [Q] keeps, holds at the end. *)
Section invariant.
Variable Q : DmarcRecord -> Prop.
Variable P : Stats -> Prop.
Hypothesis P_open : forall stats report, P stats -> P (open_report stats report).
Hypothesis P_record :
  forall domain stats r, Q r -> P stats -> P (add_record domain stats r).

Lemma invariant_records domain rs stats :
  Forall Q rs -> P stats -> P (fold_left (add_record domain) rs stats).
Proof.
  intros HQ. revert stats. induction HQ as [|r rs Hr _ IH]; intros stats HP; simpl; auto.
Qed.

Lemma invariant_reports reports stats :
  Forall Q (all_records reports) -> P stats -> P (fold_left add_report reports stats).
Proof.
  rewrite Forall_all_records. intros HQ. revert stats.
  induction HQ as [|report reports Hr _ IH]; intros stats HP; simpl; [done|].
  apply IH. unfold add_report. apply invariant_records; auto.
Qed.
End invariant.

(** *** The message totals *)

Lemma total_messages_sum reports :
  total_messages (_calculate_stats_for_reports reports)
  = sumZ msg_count_of (all_records reports).
Proof.
  unfold _calculate_stats_for_reports.
  rewrite (measure_reports total_messages (fun _ => msg_count_of)); [|done..].
  simpl. by rewrite sumZ_all_records.
Qed.

Lemma direct_total_open stats report :
  direct_total (open_report stats report) = direct_total stats.
Proof.
  unfold direct_total, open_report; simpl.
  rewrite (sumZ_od_update ds_count) by done. simpl. lia.
Qed.

Lemma direct_total_record domain stats r :
  direct_total (add_record domain stats r) = direct_total stats + direct_count domain r.
Proof.
  unfold direct_total, add_record, direct_count; simpl.
  destruct (decide (header_from_of r = domain)); [|lia].
  rewrite (sumZ_od_update ds_count) by done. simpl. lia.
Qed.

Lemma direct_total_sum reports :
  direct_total (_calculate_stats_for_reports reports)
  = sumZ (fun report => sumZ (direct_count (domain_of report)) (records report)) reports.
Proof.
  unfold _calculate_stats_for_reports.
  rewrite (measure_reports direct_total direct_count
             direct_total_open direct_total_record).
  done.
Qed.

Lemma total_minus_direct reports :
  total_messages (_calculate_stats_for_reports reports)
  - direct_total (_calculate_stats_for_reports reports)
  = sumZ (fun report => sumZ (indirect_count (domain_of report)) (records report)) reports.
Proof.
  rewrite direct_total_sum, total_messages_sum, <- sumZ_all_records.
  induction reports as [|report reports IH]; simpl; [done|].
  assert (forall rs,
    sumZ msg_count_of rs - sumZ (direct_count (domain_of report)) rs
    = sumZ (indirect_count (domain_of report)) rs) as Hrs.
  { induction rs as [|r rs IHrs]; simpl; [done|].
    unfold direct_count, indirect_count in *.
    destruct (decide (header_from_of r = domain_of report)); lia. }
  specialize (Hrs (records report)). lia.
Qed.

(** *** Failures by claimed domain *)

Lemma failures_record d domain stats r :
  hist_get (failures_by_domain (add_record domain stats r)) d
  = hist_get (failures_by_domain stats) d + failure_share d r.
Proof.
  unfold add_record, count_failures, failure_share, failing_checks; simpl.
  destruct (dkim_ok r), (spf_ok r); rewrite ?hist_get_add;
    destruct (decide (header_from_of r = d)); lia.
Qed.

(** *** Pass and fail partition the count *)

Lemma balanced_open stats report : balanced stats -> balanced (open_report stats report).
Proof.
  intros (Hd & Hi & Hk & Hs). repeat split; simpl; try done.
  apply od_update_Forall; [by split | | done].
  intros ds [? ?]. by split.
Qed.

Lemma balanced_record domain stats r :
  balanced stats -> balanced (add_record domain stats r).
Proof.
  intros (Hd & Hi & Hk & Hs). repeat split; simpl.
  - destruct (decide (header_from_of r = domain)); [|done].
    apply od_update_Forall; [by split | | done].
    intros ds [? ?]. unfold balanced_domain; simpl.
    destruct (dkim_ok r), (spf_ok r); lia.
  - apply od_update_Forall; [by split | | done].
    intros ip [? ?]. unfold balanced_source; simpl.
    destruct (dkim_ok r), (spf_ok r); lia.
  - destruct (dkim_ok r); lia.
  - destruct (spf_ok r); lia.
Qed.

Lemma balanced_stats reports : balanced (_calculate_stats_for_reports reports).
Proof.
  unfold _calculate_stats_for_reports.
  apply (invariant_reports (fun _ => True) balanced).
  - apply balanced_open.
  - intros domain stats r _. apply balanced_record.
  - by apply Forall_forall.
  - repeat split; simpl; constructor.
Qed.

(** *** Aligned messages are counted messages *)

Lemma aligned_open stats report : aligned stats -> aligned (open_report stats report).
Proof.
  intros (Hd & Hi). split; simpl; [|done].
  apply od_update_Forall; [by split | | done].
  intros ds [? ?]. by split.
Qed.

Lemma aligned_record domain stats r :
  0 <= msg_count_of r -> aligned stats -> aligned (add_record domain stats r).
Proof.
  intros Hn (Hd & Hi). split; simpl.
  - destruct (decide (header_from_of r = domain)); [|done].
    apply od_update_Forall; [by split | | done].
    intros ds [? ?]. unfold aligned_domain; simpl.
    destruct (dkim_ok r), (spf_ok r); simpl; lia.
  - apply od_update_Forall; [by split | | done].
    intros ip [? ?]. unfold aligned_source; simpl.
    destruct (dkim_ok r), (spf_ok r); simpl; lia.
Qed.

Lemma aligned_stats reports :
  nonneg_counts reports -> aligned (_calculate_stats_for_reports reports).
Proof.
  intros Hn. unfold _calculate_stats_for_reports.
  apply (invariant_reports (fun r => 0 <= msg_count_of r) aligned).
  - apply aligned_open.
  - apply aligned_record.
  - exact Hn.
  - split; simpl; constructor.
Qed.

(** ** The time-window selector *)

(** *** The anchor *)

Lemma later_fold_ge reports (m0 : option datetime) e :
  m0 = Some e \/ Exists (fun r => end_date_of r = Some e) reports ->
  exists a,
    fold_left (fun m r => later m (md_end_date_dt (metadata r))) reports m0 = Some a
    /\ e <= a.
Proof.
  revert m0 e. induction reports as [|r reports IH]; intros m0 e H; simpl.
  - destruct H as [->|H]; [exists e; split; [done|lia] | inversion H].
  - destruct H as [->|H].
    + destruct (md_end_date_dt (metadata r)) as [e1|] eqn:He1; simpl.
      * destruct (e <? e1) eqn:Hlt.
        -- destruct (IH (Some e1) e1 (or_introl eq_refl)) as (a & Ha & Hle).
           exists a. split; [done|]. apply Z.ltb_lt in Hlt. lia.
        -- apply IH. by left.
      * apply IH. by left.
    + apply Exists_cons in H as [H|H].
      * unfold end_date_of in H. rewrite H.
        destruct m0 as [e0|]; simpl.
        -- destruct (e0 <? e) eqn:Hlt.
           ++ apply IH. by left.
           ++ destruct (IH (Some e0) e0 (or_introl eq_refl)) as (a & Ha & Hle).
              exists a. split; [done|]. apply Z.ltb_ge in Hlt. lia.
        -- apply IH. by left.
      * apply IH. by right.
Qed.

Lemma later_fold_from reports (m0 : option datetime) a :
  fold_left (fun m r => later m (md_end_date_dt (metadata r))) reports m0 = Some a ->
  m0 = Some a \/ Exists (fun r => end_date_of r = Some a) reports.
Proof.
  revert m0. induction reports as [|r reports IH]; intros m0; simpl.
  - by left.
  - intros H. apply IH in H as [H|H]; [|right; by right].
    unfold end_date_of.
    destruct (md_end_date_dt (metadata r)) as [e1|] eqn:He1, m0 as [e0|]; simpl in H.
    + destruct (e0 <? e1); [right; left; simpl; congruence | by left].
    + right; left; simpl; congruence.
    + by left.
    + by left.
Qed.

Lemma find_max_end_date_latest anchor reports :
  latest_end anchor reports -> find_max_end_date reports = Some anchor.
Proof.
  intros [Hex Hall]. unfold find_max_end_date.
  destruct (later_fold_ge reports None anchor (or_intror Hex)) as (a & Ha & Hle).
  rewrite Ha. f_equal.
  apply later_fold_from in Ha as [[=]|Ha].
  apply Exists_exists in Ha as (r & Hr & He).
  rewrite Forall_forall in Hall. specialize (Hall r Hr). rewrite He in Hall. lia.
Qed.

(** A list in which some report carries an end date has a latest one. *)
Lemma latest_end_exists reports :
  Exists (fun r => is_Some (end_date_of r)) reports ->
  exists anchor, latest_end anchor reports.
Proof.
  intros Hex. apply Exists_exists in Hex as (r & Hr & [e He]).
  assert (Exists (fun r => end_date_of r = Some e) reports) as Hex
    by (apply Exists_exists; eauto).
  destruct (later_fold_ge reports None e (or_intror Hex)) as (a & Ha & _).
  exists a. split.
  - by apply later_fold_from in Ha as [[=]|Ha].
  - apply Forall_forall. intros r' Hr'.
    destruct (end_date_of r') as [e'|] eqn:He'; [|done].
    assert (Exists (fun r => end_date_of r = Some e') reports) as Hex'
      by (apply Exists_exists; eauto).
    destruct (later_fold_ge reports None e' (or_intror Hex')) as (a' & Ha' & Hle).
    rewrite Ha in Ha'. injection Ha' as <-. lia.
Qed.

(** With the anchor at the latest end date, the reports kept for a window
    are those that end inside it. *)
Lemma filter_ends_since anchor days reports :
  latest_end anchor reports ->
  List.filter (ends_since (minus_days anchor days)) reports
  = List.filter (in_window anchor days) reports.
Proof.
  intros [_ Hall]. induction Hall as [|r reports Hr _ IH]; simpl; [done|].
  rewrite IH. replace (in_window anchor days r) with (ends_since (minus_days anchor days) r); [done|].
  unfold ends_since, in_window, minus_days, end_date_of in *.
  destruct (md_end_date_dt (metadata r)) as [e|]; [|done].
  apply bool_decide_ext. lia.
Qed.

(** *** The loop over the requested periods *)

Lemma for_each_store reports anchor keys ps0 ps :
  for_each (store_period reports anchor) keys ps0 = Ok ps ->
  (forall k, k ∈ keys ->
     exists e, period_entry reports anchor k = Ok e /\ od_get k ps = Some e)
  /\ (forall k, k ∉ keys -> od_get k ps = od_get k ps0).
Proof.
  revert ps0. induction keys as [|x keys IH]; intros ps0; simpl.
  - intros [= ->]. split; [intros k Hk; inversion Hk | done].
  - unfold store_period at 1.
    destruct (period_entry reports anchor x) as [e|err] eqn:Hx; simpl; [|done].
    intros Hrest. destruct (IH _ Hrest) as [Hin Hout]. split.
    + intros k Hk. destruct (decide (k ∈ keys)) as [Hk'|Hk']; [by apply Hin|].
      apply elem_of_cons in Hk as [->|Hk]; [|done].
      exists e. split; [done|]. rewrite (Hout x Hk'). apply od_get_set_eq.
    + intros k Hk. apply not_elem_of_cons in Hk as [Hne Hk].
      rewrite (Hout k Hk). by apply od_get_set_ne.
Qed.

(** The loop succeeds when every requested key is a key of [TIME_PERIODS]. *)
Lemma period_entry_recognised reports anchor k :
  recognised k -> exists e, period_entry reports anchor k = Ok e.
Proof.
  intros [days Hk]. unfold period_entry. rewrite Hk; simpl.
  destruct (decide (k = "all")) as [->|Hne]; [eauto|].
  destruct days as [days|]; [eauto|].
  exfalso. revert Hk. unfold TIME_PERIODS; simpl.
  repeat (case_decide; [done|]). by subst.
Qed.

Lemma period_entry_Ok reports anchor k e :
  period_entry reports anchor k = Ok e -> recognised k.
Proof.
  unfold period_entry, recognised. destruct (od_get k TIME_PERIODS); [eauto | done].
Qed.

Lemma for_each_store_total reports anchor keys ps0 :
  Forall recognised keys ->
  exists ps, for_each (store_period reports anchor) keys ps0 = Ok ps.
Proof.
  intros Hk. revert ps0. induction Hk as [|x keys Hx _ IH]; intros ps0; simpl; [eauto|].
  unfold store_period at 1.
  destruct (period_entry_recognised reports anchor x Hx) as [e ->]. simpl. apply IH.
Qed.

(** The keys of the computed periods are requested keys, hence recognised. *)
Lemma for_each_store_keys reports anchor keys ps0 ps k :
  for_each (store_period reports anchor) keys ps0 = Ok ps ->
  is_Some (od_get k ps) -> k ∈ keys \/ is_Some (od_get k ps0).
Proof.
  intros Hps Hk. destruct (decide (k ∈ keys)) as [?|Hout]; [by left|].
  right. destruct (for_each_store _ _ _ _ _ Hps) as [_ H]. by rewrite <- (H k Hout).
Qed.

Lemma for_each_store_recognised reports anchor keys ps k :
  for_each (store_period reports anchor) keys [] = Ok ps ->
  is_Some (od_get k ps) -> recognised k.
Proof.
  intros Hps Hk.
  destruct (for_each_store_keys _ _ _ _ _ _ Hps Hk) as [Hin|[? [=]]].
  destruct (for_each_store _ _ _ _ _ Hps) as [H _].
  destruct (H k Hin) as (e & He & _). by eapply period_entry_Ok.
Qed.

(** *** Sorting by a key *)

Section sorting.
Context {A : Type}.
Variable key : A -> result Z.
Implicit Types (l : list A) (kl : list (Z * A)).

Lemma with_keys_Ok l kl :
  with_keys key l = Ok kl ->
  map snd kl = l /\ Forall (fun p => key p.2 = Ok p.1) kl.
Proof.
  revert kl. induction l as [|x l IH]; intros kl; simpl.
  - intros [= <-]. split; [done | constructor].
  - destruct (key x) as [k|] eqn:Hk; simpl; [|done].
    destruct (with_keys key l) as [kl'|]; simpl; [|done].
    intros [= <-]. destruct (IH kl' eq_refl) as [Hl Hall].
    split; [simpl; by rewrite Hl | by constructor].
Qed.

Lemma with_keys_total l :
  Forall (fun x => exists k, key x = Ok k) l -> exists kl, with_keys key l = Ok kl.
Proof.
  induction 1 as [|x l [k Hk] _ [kl IH]]; simpl; [eauto|].
  rewrite Hk, IH. simpl. eauto.
Qed.

Lemma insert_sorted_elem (x y : Z * A) kl :
  y ∈ insert_sorted x kl <-> y = x \/ y ∈ kl.
Proof.
  induction kl as [|z kl IH]; simpl.
  - rewrite list_elem_of_singleton. split; [by left | intros [?|H]; [done | inversion H]].
  - destruct (x.1 <=? z.1).
    + by rewrite elem_of_cons.
    + rewrite !elem_of_cons, IH. tauto.
Qed.

Lemma insertion_sort_elem (y : Z * A) kl : y ∈ foldr insert_sorted [] kl <-> y ∈ kl.
Proof.
  induction kl as [|x kl IH]; simpl; [done|].
  by rewrite insert_sorted_elem, elem_of_cons, IH.
Qed.

Lemma insert_sorted_ordered (x : Z * A) kl :
  StronglySorted (fun a b => a.1 <= b.1) kl ->
  StronglySorted (fun a b => a.1 <= b.1) (insert_sorted x kl).
Proof.
  induction 1 as [|z kl Hs IH Hz]; simpl.
  - repeat constructor.
  - destruct (x.1 <=? z.1) eqn:Hle.
    + apply Z.leb_le in Hle. constructor; [by constructor|].
      constructor; [done|]. eapply Forall_impl; [exact Hz|]. simpl. intros; lia.
    + apply Z.leb_gt in Hle. constructor; [done|].
      apply Forall_forall. intros y Hy. apply insert_sorted_elem in Hy as [->|Hy]; [lia|].
      by apply (proj1 (Forall_forall _ _) Hz).
Qed.

Lemma insertion_sort_ordered kl :
  StronglySorted (fun a b => a.1 <= b.1) (foldr insert_sorted [] kl).
Proof.
  induction kl as [|x kl IH]; simpl; [constructor | by apply insert_sorted_ordered].
Qed.

(** The first hit of a search through a list in key order has the least
    key among the hits. *)
Lemma find_ordered_least (p : A -> bool) kl x :
  StronglySorted (fun a b => a.1 <= b.1) kl ->
  List.find p (map snd kl) = Some x ->
  exists kx, (kx, x) ∈ kl /\ p x = true
             /\ forall ky y, (ky, y) ∈ kl -> p y = true -> kx <= ky.
Proof.
  induction 1 as [|[kz z] kl Hs IH Hz]; simpl; [done|].
  destruct (p z) eqn:Hp.
  - intros [= <-]. exists kz. split; [left|]. split; [done|].
    intros ky y Hy _. apply elem_of_cons in Hy as [[= -> ->]|Hy]; [lia|].
    apply (proj1 (Forall_forall _ _) Hz (ky, y) Hy).
  - intros Hf. destruct (IH Hf) as (kx & Hin & Hpx & Hmin).
    exists kx. split; [by right|]. split; [done|].
    intros ky y Hy Hpy. apply elem_of_cons in Hy as [[= -> ->]|Hy]; [congruence|].
    by apply (Hmin ky y).
Qed.

Lemma sorted_by_elem l l' x : sorted_by key l = Ok l' -> x ∈ l' <-> x ∈ l.
Proof.
  unfold sorted_by. destruct (with_keys key l) as [kl|] eqn:Hkl; simpl; [|done].
  intros [= <-]. destruct (with_keys_Ok _ _ Hkl) as [<- _].
  rewrite !list_elem_of_In, !in_map_iff.
  split; intros (p & Hp & Hin); exists p; (split; [done|]);
    apply list_elem_of_In; apply list_elem_of_In in Hin.
  - by apply (proj1 (insertion_sort_elem _ _)).
  - by apply (proj2 (insertion_sort_elem _ _)).
Qed.

Lemma sorted_by_find_Some (p : A -> bool) l l' x :
  sorted_by key l = Ok l' ->
  List.find p l' = Some x ->
  x ∈ l /\ p x = true
  /\ exists kx, key x = Ok kx
                /\ forall y ky, y ∈ l -> key y = Ok ky -> p y = true -> kx <= ky.
Proof.
  intros Hs Hf. pose proof (find_some _ _ Hf) as [Hin Hp].
  apply list_elem_of_In in Hin. rewrite (sorted_by_elem _ _ _ Hs) in Hin.
  split; [done|]. split; [done|].
  unfold sorted_by in Hs. destruct (with_keys key l) as [kl|] eqn:Hkl; simpl in Hs; [|done].
  injection Hs as <-. destruct (with_keys_Ok _ _ Hkl) as [Hl Hkeys].
  destruct (find_ordered_least p _ x (insertion_sort_ordered kl) Hf)
    as (kx & Hx & _ & Hmin).
  apply (proj1 (insertion_sort_elem _ _)) in Hx.
  exists kx. split; [apply (proj1 (Forall_forall _ _) Hkeys (kx, x) Hx)|].
  intros y ky Hy Hky Hpy. subst l.
  apply list_elem_of_In, in_map_iff in Hy as ([ky' y'] & Heq & Hy'); simpl in Heq; subst y'.
  apply list_elem_of_In in Hy'.
  pose proof (proj1 (Forall_forall _ _) Hkeys (ky', y) Hy') as Hk'; simpl in Hk'.
  assert (ky' = ky) as -> by congruence.
  apply (Hmin ky y); [by apply (proj2 (insertion_sort_elem _ _)) | done].
Qed.

Lemma sorted_by_find_None (p : A -> bool) l l' y :
  sorted_by key l = Ok l' -> List.find p l' = None -> y ∈ l -> p y = false.
Proof.
  intros Hs Hf Hy. apply (find_none _ _ Hf).
  apply list_elem_of_In. by rewrite (sorted_by_elem _ _ _ Hs).
Qed.

Lemma sorted_by_total l :
  Forall (fun x => exists k, key x = Ok k) l -> exists l', sorted_by key l = Ok l'.
Proof.
  intros H. destruct (with_keys_total l H) as [kl Hkl].
  unfold sorted_by. rewrite Hkl. simpl. eauto.
Qed.
End sorting.

(** *** The period keys *)

Lemma numeric_period_cases k d :
  numeric_period k d ->
  (k = "30" /\ d = 30) \/ (k = "90" /\ d = 90)
  \/ (k = "180" /\ d = 180) \/ (k = "360" /\ d = 360).
Proof.
  unfold numeric_period, TIME_PERIODS; simpl.
  repeat (case_decide; [intros [= <-]; subst; tauto|]). done.
Qed.

Lemma recognised_cases k : recognised k -> k = "all" \/ exists d, numeric_period k d.
Proof.
  unfold recognised, numeric_period. intros [[d|] Hk]; [right; eauto|].
  left. revert Hk. unfold TIME_PERIODS; simpl.
  repeat (case_decide; [intros [=]; by subst|]). done.
Qed.

Lemma period_order_numeric k d : numeric_period k d -> period_order k = Ok d /\ d < 9999.
Proof.
  intros H. apply numeric_period_cases in H as [[-> ->]|[[-> ->]|[[-> ->]|[-> ->]]]];
    (split; [reflexivity | lia]).
Qed.

Lemma period_order_recognised k : recognised k -> exists z, period_order k = Ok z.
Proof.
  intros H. apply recognised_cases in H as [->|[d Hd]].
  - by exists 9999.
  - exists d. by apply period_order_numeric.
Qed.

Lemma meaningful_in_present ps k : meaningful_in ps k = true -> is_Some (od_get k ps).
Proof. unfold meaningful_in. destruct (od_get k ps); [eauto | done]. Qed.

(** ** Properties of the accumulator *)

(** C2, as amended.  When no record has a negative message count, the sum
    of [count] over the domains of [domain_stats] is at most
    [total_messages], and the two are equal exactly when every record whose
    [header_from] differs from the domain under report has a message count
    of zero. *)
Theorem domain_counts_within_total reports :
  nonneg_counts reports ->
  let stats := _calculate_stats_for_reports reports in
  direct_total stats <= total_messages stats
  /\ (direct_total stats = total_messages stats <-> indirect_are_empty reports).
Proof.
  intros Hn stats. pose proof (total_minus_direct reports) as Hdiff. fold stats in Hdiff.
  apply Forall_all_records in Hn.
  assert (Forall (fun report =>
            0 <= sumZ (indirect_count (domain_of report)) (records report)) reports)
    as Hsums.
  { eapply Forall_impl; [exact Hn|]. intros report Hr. apply sumZ_nonneg.
    eapply Forall_impl; [exact Hr|]. intros r Hc. unfold indirect_count.
    destruct (decide (header_from_of r = domain_of report)); simpl in *; lia. }
  split; [pose proof (sumZ_nonneg _ _ Hsums); lia|].
  transitivity
    (sumZ (fun report => sumZ (indirect_count (domain_of report)) (records report)) reports = 0);
    [lia|].
  rewrite (sumZ_zero_iff _ _ Hsums). unfold indirect_are_empty.
  clear Hdiff Hsums. induction Hn as [|report reports Hr _ IH].
  - split; constructor.
  - assert (sumZ (indirect_count (domain_of report)) (records report) = 0
            <-> Forall (fun r => direct_in report r \/ msg_count_of r = 0) (records report))
      as Hhead.
    { rewrite sumZ_zero_iff.
      - split; intros H; (eapply Forall_impl; [exact H|]); intros r; simpl;
          unfold indirect_count, direct_in;
          destruct (decide (header_from_of r = domain_of report)); tauto.
      - eapply Forall_impl; [exact Hr|]. intros r Hc. unfold indirect_count.
        destruct (decide (header_from_of r = domain_of report)); simpl in *; lia. }
    split; intros H; inversion H as [|? ? Hh Ht]; subst;
      (constructor; [by apply Hhead | by apply IH]).
Qed.

Lemma domain_counts_within_total_witness :
  nonneg_counts [report_monitoring; report_enforcing]
  /\ let stats := _calculate_stats_for_reports [report_monitoring; report_enforcing] in
     direct_total stats <= total_messages stats
     /\ (direct_total stats = total_messages stats
         <-> indirect_are_empty [report_monitoring; report_enforcing]).
Proof.
  split; [|apply domain_counts_within_total];
    unfold nonneg_counts; simpl; repeat (constructor; [by vm_compute|]); constructor.
Defined.

(** The claim C2 as stated fails on a report whose only record claims
    another domain and counts no message: the two sums are equal, both 0,
    although the record is not a direct one. *)
Lemma equality_without_all_direct :
  ~ ([report_zero_indirect] <> [] ->
     nonneg_counts [report_zero_indirect] ->
     let stats := _calculate_stats_for_reports [report_zero_indirect] in
     direct_total stats <= total_messages stats
     /\ (direct_total stats = total_messages stats -> all_direct [report_zero_indirect])).
Proof.
  intros H.
  destruct H as [_ H]; [done | repeat constructor; by vm_compute |].
  specialize (H eq_refl). inversion H as [|? ? Hrep _]; subst.
  inversion Hrep as [|? ? Hrec _]; subst. by vm_compute in Hrec.
Qed.

(** C3.  For every claimed domain [d], [failures_by_domain[d]] is the sum,
    over all records of all reports whose [header_from] is [d], of the
    message count times the number of failed checks (DKIM, SPF; a result
    fails unless it is ['pass'] in any letter case), so that a record
    failing both checks adds its count twice. *)
Theorem failures_by_domain_counts_checks reports d :
  hist_get (failures_by_domain (_calculate_stats_for_reports reports)) d
  = failures_of d reports.
Proof.
  unfold _calculate_stats_for_reports, failures_of.
  rewrite (measure_reports (fun stats => hist_get (failures_by_domain stats) d)
                           (fun _ => failure_share d)).
  - by rewrite sumZ_all_records.
  - done.
  - intros domain stats r. apply failures_record.
Qed.

(** C7.  When no record has a negative message count, every entry of
    [domain_stats] and every entry of [ips] has
    [fully_aligned <= count] and [fully_aligned <= dkim_pass + spf_pass]. *)
Theorem fully_aligned_bounded reports :
  nonneg_counts reports ->
  Forall (fun kv => aligned_domain kv.2)
         (domain_stats (_calculate_stats_for_reports reports))
  /\ Forall (fun kv => aligned_source kv.2)
            (ips (_calculate_stats_for_reports reports)).
Proof. apply aligned_stats. Qed.

Lemma fully_aligned_bounded_witness :
  nonneg_counts [report_monitoring; report_enforcing]
  /\ Forall (fun kv => aligned_domain kv.2)
            (domain_stats (_calculate_stats_for_reports [report_monitoring; report_enforcing]))
  /\ Forall (fun kv => aligned_source kv.2)
            (ips (_calculate_stats_for_reports [report_monitoring; report_enforcing])).
Proof.
  split; [|apply fully_aligned_bounded];
    unfold nonneg_counts; simpl; repeat (constructor; [by vm_compute|]); constructor.
Defined.

(** C10.  In the output of the accumulator every entry of [domain_stats]
    and every entry of [ips] has [dkim_pass + dkim_fail = count] and
    [spf_pass + spf_fail = count], and overall
    [dkim pass + fail = spf pass + fail = total_messages]. *)
Theorem pass_fail_partition reports :
  let stats := _calculate_stats_for_reports reports in
  Forall (fun kv => balanced_domain kv.2) (domain_stats stats)
  /\ Forall (fun kv => balanced_source kv.2) (ips stats)
  /\ dkim_overall_pass stats + dkim_overall_fail stats = total_messages stats
  /\ spf_overall_pass stats + spf_overall_fail stats = total_messages stats.
Proof. apply balanced_stats. Qed.

(** ** Properties of the time-window selector *)

Lemma in_window_true anchor days r :
  in_window anchor days r = true
  <-> exists e, end_date_of r = Some e /\ anchor - 86400 * days <= e /\ e <= anchor.
Proof.
  unfold in_window. destruct (end_date_of r) as [e|].
  - rewrite bool_decide_eq_true. split; [eauto | by intros (? & [= <-] & ?)].
  - split; [done | by intros (? & [=] & _)].
Qed.

(** What [analyze_reports] returns for a list that is not empty. *)
Lemma analyze_reports_nonempty now reports keys bundle :
  reports <> [] ->
  analyze_reports now reports keys = Ok bundle ->
  exists ps choice,
    for_each (store_period reports (default now (find_max_end_date reports)))
             (default ["30"; "all"] keys) [] = Ok ps
    /\ select_default_period ps = Ok choice
    /\ bundle = {| periods := ps; default_period := Some choice |}.
Proof.
  intros Hne. unfold analyze_reports. destruct reports as [|r0 reports]; [done|].
  destruct (for_each _ _ _) as [ps|] eqn:Hps; simpl; [|done].
  destruct (select_default_period ps) as [choice|] eqn:Hsel; simpl; [|done].
  intros [= <-]. by exists ps, choice.
Qed.

Lemma select_default_period_total ps :
  (forall k, is_Some (od_get k ps) -> recognised k) ->
  exists choice, select_default_period ps = Ok choice.
Proof.
  intros Hrec. unfold select_default_period.
  destruct (meaningful_in ps "30"); [eauto|].
  destruct (sorted_by_total period_order (map fst ps)) as [ordered ->].
  { apply Forall_forall. intros k Hk. apply period_order_recognised, Hrec.
    by apply od_get_is_Some. }
  simpl. destruct (List.find _ _); [eauto|]. case_bool_decide; eauto.
Qed.

(** [analyze_reports] returns a bundle whenever the requested keys are keys
    of [TIME_PERIODS]. *)
Lemma analyze_reports_total now reports keys :
  Forall recognised (default ["30"; "all"] keys) ->
  exists bundle, analyze_reports now reports keys = Ok bundle.
Proof.
  intros Hrec. unfold analyze_reports. destruct reports as [|r0 reports]; [eauto|].
  destruct (for_each_store_total (r0 :: reports)
              (default now (find_max_end_date (r0 :: reports))) _ [] Hrec) as [ps Hps].
  rewrite Hps. simpl.
  destruct (select_default_period_total ps) as [choice ->]; [|simpl; eauto].
  intros k. by apply for_each_store_recognised with (1 := Hps).
Qed.

(** C1.  When some report carries an end date, let [anchor] be the latest
    of the end dates.  The statistics of a numeric period of [days] days
    are those of the sublist [kept] of the reports, in their order, that
    holds exactly the reports whose end date lies in
    [[anchor - days, anchor]], both bounds included; a report without end
    date is in no such window. *)
Theorem numeric_window_filter now reports keys bundle k days :
  analyze_reports now reports keys = Ok bundle ->
  k ∈ default ["30"; "all"] keys ->
  numeric_period k days ->
  Exists (fun r => is_Some (end_date_of r)) reports ->
  exists anchor entry kept,
    latest_end anchor reports
    /\ od_get k (periods bundle) = Some entry
    /\ pe_days entry = Some (Some days)
    /\ pe_stats entry = _calculate_stats_for_reports kept
    /\ kept = List.filter (in_window anchor days) reports
    /\ (forall r,
          r ∈ kept
          <-> r ∈ reports
              /\ exists e, end_date_of r = Some e
                           /\ anchor - 86400 * days <= e /\ e <= anchor).
Proof.
  intros Hb Hk Hnum Hdated.
  destruct (latest_end_exists _ Hdated) as [anchor Hlatest].
  assert (reports <> []) as Hne by (intros ->; inversion Hdated).
  destruct (analyze_reports_nonempty _ _ _ _ Hne Hb) as (ps & choice & Hps & _ & ->).
  rewrite (find_max_end_date_latest _ _ Hlatest) in Hps. simpl in Hps.
  destruct (for_each_store _ _ _ _ _ Hps) as [Hin _].
  destruct (Hin k Hk) as (entry & He & Hget).
  exists anchor, entry, (List.filter (in_window anchor days) reports).
  split; [done|]. split; [done|].
  unfold period_entry in He. unfold numeric_period in Hnum. rewrite Hnum in He.
  simpl in He. destruct (decide (k = "all")) as [->|_]; [by vm_compute in Hnum|].
  injection He as <-. simpl. split; [done|].
  split; [by rewrite (filter_ends_since _ _ _ Hlatest)|]. split; [done|].
  intros r. rewrite !list_elem_of_In, filter_In, in_window_true. tauto.
Qed.

Lemma bundle_three_computed :
  analyze_reports 0 reports_three (Some ["30"; "90"; "all"]) = Ok bundle_three.
Proof. by vm_compute. Qed.

Lemma numeric_window_filter_witness :
  analyze_reports 0 reports_three (Some ["30"; "90"; "all"]) = Ok bundle_three
  /\ "90" ∈ default ["30"; "all"] (Some ["30"; "90"; "all"])
  /\ numeric_period "90" 90
  /\ Exists (fun r => is_Some (end_date_of r)) reports_three
  /\ exists anchor entry kept,
       latest_end anchor reports_three
       /\ od_get "90" (periods bundle_three) = Some entry
       /\ pe_days entry = Some (Some 90)
       /\ pe_stats entry = _calculate_stats_for_reports kept
       /\ kept = List.filter (in_window anchor 90) reports_three
       /\ (forall r,
             r ∈ kept
             <-> r ∈ reports_three
                 /\ exists e, end_date_of r = Some e
                              /\ anchor - 86400 * 90 <= e /\ e <= anchor).
Proof.
  assert (Exists (fun r => is_Some (end_date_of r)) reports_three) as Hdated.
  { left. by eexists. }
  assert ("90" ∈ default ["30"; "all"] (Some ["30"; "90"; "all"])) as Hk.
  { simpl. right. left. }
  split; [exact bundle_three_computed|]. split; [exact Hk|]. split; [reflexivity|].
  split; [exact Hdated|].
  apply (numeric_window_filter 0 reports_three (Some ["30"; "90"; "all"])
           bundle_three "90" 90);
    [exact bundle_three_computed | exact Hk | reflexivity | exact Hdated].
Defined.

(** In the sample the window of 90 days keeps the two later reports. *)
Example window_90_of_three :
  List.filter (in_window (86400 * 19101) 90) reports_three
  = [report_enforcing; report_silent]
  /\ List.filter (in_window (86400 * 19101) 30) reports_three = [report_silent].
Proof. by vm_compute. Qed.

(** For a list of reports that is not empty, the default period of the
    bundle is the choice of [select_default_period] among its periods, and
    every period of the bundle has a key of [TIME_PERIODS]. *)
Lemma analyze_reports_default now reports keys bundle :
  reports <> [] ->
  analyze_reports now reports keys = Ok bundle ->
  (exists choice, select_default_period (periods bundle) = Ok choice
                  /\ default_period bundle = Some choice)
  /\ (forall k, is_Some (od_get k (periods bundle)) -> recognised k).
Proof.
  intros Hne Hb.
  destruct (analyze_reports_nonempty _ _ _ _ Hne Hb) as (ps & choice & Hps & Hsel & ->).
  simpl. split; [eauto|]. intros k. by apply for_each_store_recognised with (1 := Hps).
Qed.


(** C4, as amended.  For a list of reports that is not empty, when ['all']
    is among the requested periods or some period of the bundle is
    meaningful, the bundle's [default_period] names a period present in its
    [periods]. *)
Theorem default_period_present now reports keys bundle :
  reports <> [] ->
  analyze_reports now reports keys = Ok bundle ->
  "all" ∈ default ["30"; "all"] keys
  \/ (exists k, meaningful_in (periods bundle) k = true) ->
  exists k, default_period bundle = Some (Some k)
            /\ is_Some (od_get k (periods bundle)).
Proof.
  intros Hne Hb Hsome.
  destruct (analyze_reports_nonempty _ _ _ _ Hne Hb) as (ps & choice & Hps & Hsel & ->).
  simpl in *. unfold select_default_period in Hsel.
  destruct (meaningful_in ps "30") eqn:H30.
  { injection Hsel as <-. exists "30". split; [done|]. by apply meaningful_in_present. }
  destruct (sorted_by period_order (map fst ps)) as [ordered|] eqn:Hord; simpl in Hsel; [|done].
  destruct (List.find (meaningful_in ps) ordered) as [x|] eqn:Hfind.
  { injection Hsel as <-. exists x. split; [done|].
    destruct (sorted_by_find_Some _ _ _ _ _ Hord Hfind) as (_ & Hx & _).
    by apply meaningful_in_present. }
  case_bool_decide as Hall; injection Hsel as <-.
  { by exists "all". }
  exfalso. destruct Hsome as [Hk|[k Hk]].
  - destruct (for_each_store _ _ _ _ _ Hps) as [Hin _].
    destruct (Hin "all" Hk) as (e & _ & Hget). apply Hall. rewrite Hget. eauto.
  - pose proof (meaningful_in_present _ _ Hk) as Hpres.
    apply od_get_is_Some in Hpres.
    rewrite (sorted_by_find_None _ _ _ _ k Hord Hfind Hpres) in Hk. done.
Qed.

Lemma default_period_present_witness :
  reports_three <> []
  /\ analyze_reports 0 reports_three (Some ["30"; "90"; "all"]) = Ok bundle_three
  /\ ("all" ∈ default ["30"; "all"] (Some ["30"; "90"; "all"])
      \/ (exists k, meaningful_in (periods bundle_three) k = true))
  /\ exists k, default_period bundle_three = Some (Some k)
               /\ is_Some (od_get k (periods bundle_three)).
Proof.
  assert ("all" ∈ default ["30"; "all"] (Some ["30"; "90"; "all"])) as Hall.
  { simpl. right. right. left. }
  split; [done|]. split; [by vm_compute|]. split; [by left|].
  apply (default_period_present 0 reports_three (Some ["30"; "90"; "all"]) bundle_three);
    [done | by vm_compute | by left].
Defined.

(** The claim C4 as stated fails in two ways.  A report without messages,
    analysed for 30 days only, gives a bundle whose default period is
    [None]; an empty list of reports gives a bundle without default. *)
Lemma default_period_unset :
  ~ (forall bundle,
       analyze_reports 0 [report_silent] (Some ["30"]) = Ok bundle ->
       exists k, default_period bundle = Some (Some k)
                 /\ is_Some (od_get k (periods bundle)))
  /\ ~ (forall bundle,
          analyze_reports 0 [] (Some ["30"; "all"]) = Ok bundle ->
          exists k, default_period bundle = Some (Some k)
                    /\ is_Some (od_get k (periods bundle))).
Proof.
  split; intros H.
  - destruct (H (bundle_of (analyze_reports 0 [report_silent] (Some ["30"]))))
      as (k & Hk & _); [by vm_compute|].
    by vm_compute in Hk.
  - destruct (H (bundle_of (analyze_reports 0 [] (Some ["30"; "all"]))))
      as (k & Hk & _); [by vm_compute|].
    by vm_compute in Hk.
Qed.

(** C5.  Among periods whose keys are keys of [TIME_PERIODS], the default
    chosen for the bundle is ['30'] when that period is present and
    meaningful; otherwise the meaningful numeric period of the fewest days,
    ['all'] counting after every numeric key; otherwise ['all'] when it is
    present. *)
Theorem default_period_selection ps :
  (forall k, is_Some (od_get k ps) -> recognised k) ->
  exists choice,
    select_default_period ps = Ok choice
    /\ (forall now reports keys bundle,
          reports <> [] ->
          analyze_reports now reports keys = Ok bundle ->
          periods bundle = ps ->
          default_period bundle = Some choice)
    /\ (meaningful_in ps "30" = true -> choice = Some "30")
    /\ (meaningful_in ps "30" = false ->
        forall k d,
          numeric_period k d -> meaningful_in ps k = true ->
          (forall k' d', numeric_period k' d' -> meaningful_in ps k' = true -> d <= d') ->
          choice = Some k)
    /\ (meaningful_in ps "30" = false ->
        (forall k d, numeric_period k d -> meaningful_in ps k = false) ->
        is_Some (od_get "all" ps) ->
        choice = Some "all").
Proof.
  intros Hrec. destruct (select_default_period_total ps Hrec) as [choice Hsel].
  exists choice. split; [done|]. split.
  { intros now reports keys bundle Hne Hb <-.
    destruct (analyze_reports_default _ _ _ _ Hne Hb) as [(choice' & Hsel' & ->) _].
    congruence. }
  unfold select_default_period in Hsel.
  destruct (meaningful_in ps "30") eqn:H30.
  { injection Hsel as <-. by repeat split. }
  destruct (sorted_by period_order (map fst ps)) as [ordered|] eqn:Hord; simpl in Hsel; [|done].
  split; [done|]. split.
  - intros _ k d Hnum Hk Hleast.
    pose proof (meaningful_in_present _ _ Hk) as Hpres. apply od_get_is_Some in Hpres.
    destruct (List.find (meaningful_in ps) ordered) as [x|] eqn:Hfind.
    + injection Hsel as <-. f_equal.
      destruct (sorted_by_find_Some _ _ _ _ _ Hord Hfind) as (Hx & Hmx & kx & Hkx & Hmin).
      destruct (period_order_numeric _ _ Hnum) as [Hkd Hd].
      pose proof (Hmin k d Hpres Hkd Hk) as Hle.
      destruct (recognised_cases x) as [->|[dx Hnx]].
      { apply Hrec. by apply od_get_is_Some. }
      { vm_compute in Hkx. injection Hkx as <-. lia. }
      destruct (period_order_numeric _ _ Hnx) as [Hkx' _].
      assert (dx = kx) as -> by congruence.
      pose proof (Hleast x kx Hnx Hmx) as Hge.
      assert (kx = d) as -> by lia.
      apply numeric_period_cases in Hnum, Hnx.
      destruct Hnum as [[-> ?]|[[-> ?]|[[-> ?]|[-> ?]]]],
               Hnx as [[-> ?]|[[-> ?]|[[-> ?]|[-> ?]]]]; (done || lia).
    + rewrite (sorted_by_find_None _ _ _ _ k Hord Hfind Hpres) in Hk. done.
  - intros _ Hnone Hall.
    destruct (List.find (meaningful_in ps) ordered) as [x|] eqn:Hfind.
    + injection Hsel as <-. f_equal.
      destruct (sorted_by_find_Some _ _ _ _ _ Hord Hfind) as (Hx & Hmx & _).
      destruct (recognised_cases x) as [->|[dx Hnx]]; [|done|].
      { apply Hrec. by apply od_get_is_Some. }
      rewrite (Hnone x dx Hnx) in Hmx. done.
    + rewrite bool_decide_true in Hsel by done. by injection Hsel as <-.
Qed.

(** The example of the specification: 30 days not meaningful, 90 days and
    all data meaningful; the default is ['90']. *)
Lemma default_period_selection_witness :
  (forall k, is_Some (od_get k periods_30_empty) -> recognised k)
  /\ select_default_period periods_30_empty = Ok (Some "90").
Proof.
  assert (forall k, is_Some (od_get k periods_30_empty) -> recognised k) as Hrec.
  { intros k Hk. apply od_get_is_Some in Hk. simpl in Hk.
    repeat (apply elem_of_cons in Hk as [->|Hk]; [by eexists|]). inversion Hk. }
  split; [exact Hrec|].
  destruct (default_period_selection periods_30_empty Hrec)
    as (choice & -> & _ & _ & H90 & _).
  f_equal. apply (H90 eq_refl "90" 90); [reflexivity | reflexivity |].
  intros k' d' Hnum Hk'.
  apply numeric_period_cases in Hnum as [[-> ->]|[[-> ->]|[[-> ->]|[-> ->]]]];
    (lia || by vm_compute in Hk').
Defined.

(** The same example through [analyze_reports]: of three reports the
    latest carries no message, so that the 30 days are not meaningful while
    the 90 days and all data are. *)
Example default_period_three :
  map (fun kv => (kv.1, is_meaningful kv.2)) (periods bundle_three)
  = [("30", false); ("90", true); ("all", true)]
  /\ default_period bundle_three = Some (Some "90").
Proof. by vm_compute. Qed.

(** ** Properties of the recommendation engine *)

Lemma Forall2_map_r {A B : Type} (P : A -> B -> Prop) (f : A -> B) (l : list A) :
  (forall x, P x (f x)) -> Forall2 P l (map f l).
Proof. intros H. induction l; simpl; constructor; auto. Qed.

(** The warning is no line of the authentication rules. *)
Lemma loss_warning_not_authentication ds : loss_warning ∉ authentication_lines ds.
Proof. unfold authentication_lines. intros H. not_the_warning H. Qed.

Lemma recommend_domain_rules stats days domain ds :
  0 < ds_count ds ->
  progression_rules ds (recommendations (recommend_domain stats days domain ds)).
Proof.
  intros Hcount. unfold recommend_domain.
  replace (ds_count ds =? 0) with false by (symmetry; apply Z.eqb_neq; lia).
  simpl. unfold policy_progression. split.
  - intros -> ->. simpl. right. left. reflexivity.
  - intros -> ->. simpl. split; [right; left; reflexivity|].
    destruct (float_lt (alignment_rate_of ds) f0_98); simpl.
    + split; [done|]. intros _. right. right. left.
    + split; [|done]. intros H.
      apply elem_of_cons in H as [H|H]; [done|].
      apply elem_of_cons in H as [H|H]; [done|].
      by apply loss_warning_not_authentication in H.
Qed.

Lemma resolve_unknown_key bundle k :
  od_get k (periods bundle) = None -> resolve_period_key bundle (Some k) = "all".
Proof.
  intros H. unfold resolve_period_key. rewrite H.
  rewrite bool_decide_false; [done | by intros [? [=]]].
Qed.

(** With ['all'] among the periods of the bundle, recommendations are
    returned for every requested key. *)
Lemma recommendations_with_all bundle key :
  is_Some (od_get "all" (periods bundle)) ->
  exists recs, generate_policy_recommendations bundle key = Ok recs.
Proof.
  intros Hall. unfold generate_policy_recommendations.
  assert (is_Some (od_get (resolve_period_key bundle key) (periods bundle))) as [pd ->];
    [|eauto].
  unfold resolve_period_key.
  destruct (match key with Some k => Some k | None => _ end) as [k|]; [|done].
  by case_bool_decide.
Qed.

(** The entry of a domain with direct messages carries a snapshot. *)
Lemma detailed_entry_snapshot stats days domain ds :
  ds_count ds <> 0 ->
  rec_stats (recommend_domain stats days domain ds)
  = StatsSnapshot {|
      messages := ds_count ds;
      dkim_rate := PrimFloat.mul (dkim_pass_rate ds) 100%float;
      spf_rate := PrimFloat.mul (spf_pass_rate ds) 100%float;
      alignment_rate := PrimFloat.mul (alignment_rate_of ds) 100%float;
      current_policy := ds_current_policy ds;
      current_pct := ds_current_pct ds;
      current_sp := ds_current_sp ds;
      num_sources := Z.of_nat (size (ds_sending_sources ds));
      policy_results := ds_policy_applied ds
    |}.
Proof.
  intros Hcount. unfold recommend_domain.
  by replace (ds_count ds =? 0) with false by (symmetry; by apply Z.eqb_neq).
Qed.

(** C6.  For the period the recommendations are computed for, the entries
    follow the domains of its [domain_stats], and for every domain with
    [count > 0]: with [p=none] and an alignment rate of at least 0.95 the
    lines contain one that starts with [POLICY UPGRADE:]; with [p=reject]
    and pct 100 they contain one that starts with [OPTIMAL:], and the
    warning about the loss of legitimate mail if and only if the alignment
    rate is below 0.98. *)
Theorem policy_progression_rules bundle key period_data :
  od_get (resolve_period_key bundle key) (periods bundle) = Some period_data ->
  exists recs,
    generate_policy_recommendations bundle key = Ok recs
    /\ Forall2 (fun kv entry =>
                  rec_domain entry = kv.1
                  /\ (0 < ds_count kv.2 ->
                      progression_rules kv.2 (recommendations entry)))
               (domain_stats (pe_stats period_data)) recs.
Proof.
  intros Hget. unfold generate_policy_recommendations. rewrite Hget.
  eexists. split; [reflexivity|].
  apply Forall2_map_r. intros [domain ds]. simpl. split.
  - unfold recommend_domain. by destruct (ds_count ds =? 0).
  - apply recommend_domain_rules.
Qed.

Lemma policy_progression_rules_witness :
  od_get (resolve_period_key bundle_three (Some "90")) (periods bundle_three)
  = Some period_90
  /\ exists recs,
       generate_policy_recommendations bundle_three (Some "90") = Ok recs
       /\ Forall2 (fun kv entry =>
                     rec_domain entry = kv.1
                     /\ (0 < ds_count kv.2 ->
                         progression_rules kv.2 (recommendations entry)))
                  (domain_stats (pe_stats period_90)) recs.
Proof.
  split; [by vm_compute|].
  apply (policy_progression_rules bundle_three (Some "90") period_90). by vm_compute.
Defined.

(** The comparisons at the cutoffs: a rate of exactly 0.95 reaches the
    threshold 0.95, a rate of exactly 0.98 is not below 0.98. *)
Example rates_at_the_cutoffs :
  float_ge (rate 95 100) f0_95 = true
  /\ float_ge (rate 949 1000) f0_95 = false
  /\ float_lt (rate 98 100) f0_98 = false
  /\ float_lt (rate 979 1000) f0_98 = true
  /\ format_pct1 (rate 949 1000) = "94.9%".
Proof. by vm_compute. Qed.

(** The two examples of the specification.  An alignment rate of 0.96 under
    [p=none]: the upgrade is recommended. *)
Example recommendations_monitoring :
  recommendations
    (recommend_domain new_stats (Some 30) "example.com"
       {| ds_count := 100; ds_dkim_pass := 96; ds_dkim_fail := 4;
          ds_spf_pass := 0; ds_spf_fail := 100; ds_fully_aligned := 96;
          ds_current_policy := "none"; ds_current_pct := 100; ds_current_sp := "none";
          ds_sending_sources := ∅; ds_policy_applied := ∅ |})
  = ["INFO: Recommendations based on the last 30 days.";
     "POLICY UPGRADE: Consider moving to 'p=quarantine' with pct=5 as alignment rate is excellent (96.0%).";
     "SPF ISSUE: Improve SPF alignment (currently 0.0% pass rate).";
     "CRITICAL: SPF failures are significant and require immediate attention."].
Proof. by vm_compute. Qed.

(** An alignment rate of 0.99 under [p=reject] at pct 100: the policy is
    optimal and no loss of legitimate mail is feared. *)
Example recommendations_enforcing :
  match generate_policy_recommendations bundle_three (Some "90") with
  | Ok recs => map recommendations recs
  | Raise _ => []
  end
  = [["INFO: Recommendations based on the last 90 days.";
      "OPTIMAL: DMARC policy is at maximum enforcement (p=reject, pct=100)."]].
Proof. by vm_compute. Qed.

(** C8, at the input where the code departs from it.  A bundle computed
    for 30 days only is asked for the recommendations of 90 days: the key
    falls back to ['all'], which the bundle lacks, and [KeyError] is
    raised. *)
Theorem fallback_without_all_raises :
  analyze_reports 0 [report_monitoring] (Some ["30"]) = Ok bundle_30_only
  /\ od_get "90" (periods bundle_30_only) = None
  /\ generate_policy_recommendations bundle_30_only (Some "90") = Raise (KeyError "all").
Proof. by vm_compute. Qed.

(** C9, at the input where the code departs from it.  The domain under
    report received no direct message: its entry carries the accumulator's
    own statistics of the domain, not a snapshot. *)
Theorem no_data_entry_without_snapshot :
  analyze_reports 0 [report_spoofed] (Some ["30"; "all"]) = Ok bundle_spoofed
  /\ exists ds,
       ds_count ds = 0
       /\ generate_policy_recommendations bundle_spoofed None
          = Ok [{| rec_domain := "example.com";
                   recommendations :=
                     ["No data available for direct messages from example.com in the last 30 days."];
                   rec_stats := RawDomainStats ds |}].
Proof.
  split; [by vm_compute|].
  eexists. split; [|by vm_compute]. reflexivity.
Qed.

(** ** Further properties of the accumulator *)

Lemma sumZ_zero {A : Type} (l : list A) : sumZ (fun _ => 0) l = 0.
Proof. induction l as [|x l IH]; simpl; lia. Qed.

Lemma sumZ_perm {A : Type} (f : A -> Z) (l l' : list A) :
  Permutation l l' -> sumZ f l = sumZ f l'.
Proof. induction 1; simpl; lia. Qed.

Lemma calc_app l1 l2 :
  _calculate_stats_for_reports (l1 ++ l2)
  = fold_left add_report l2 (_calculate_stats_for_reports l1).
Proof. unfold _calculate_stats_for_reports. apply fold_left_app. Qed.

(** *** The sources account for every message *)

Lemma source_sum_record (g : SourceStats -> Z) (c : DmarcRecord -> Z) domain stats r :
  g new_source_stats = 0 ->
  (forall ip, g (count_source r ip) = g ip + c r) ->
  sumZ (fun kv => g kv.2) (ips (add_record domain stats r))
  = sumZ (fun kv => g kv.2) (ips stats) + c r.
Proof.
  intros H0 Hstep. unfold add_record; simpl.
  rewrite (sumZ_od_update g) by done. rewrite Hstep. lia.
Qed.

(** X1.  [total_messages] is the sum of the message counts of all records,
    and the entries of [ips] account for it: their counts add up to
    [total_messages], their DKIM and SPF passes and failures to the overall
    passes and failures. *)
Theorem sources_account_for_total reports :
  let stats := _calculate_stats_for_reports reports in
  total_messages stats = sumZ msg_count_of (all_records reports)
  /\ sumZ (fun kv => ip_count kv.2) (ips stats) = total_messages stats
  /\ sumZ (fun kv => ip_dkim_pass kv.2) (ips stats) = dkim_overall_pass stats
  /\ sumZ (fun kv => ip_dkim_fail kv.2) (ips stats) = dkim_overall_fail stats
  /\ sumZ (fun kv => ip_spf_pass kv.2) (ips stats) = spf_overall_pass stats
  /\ sumZ (fun kv => ip_spf_fail kv.2) (ips stats) = spf_overall_fail stats.
Proof.
  intros stats. split; [apply total_messages_sum|]. unfold stats.
  assert (forall (g : SourceStats -> Z) (o : Stats -> Z) (c : DmarcRecord -> Z),
            g new_source_stats = 0 ->
            o new_stats = 0 ->
            (forall st report, o (open_report st report) = o st) ->
            (forall r ip, g (count_source r ip) = g ip + c r) ->
            (forall domain st r, o (add_record domain st r) = o st + c r) ->
            sumZ (fun kv => g kv.2) (ips (_calculate_stats_for_reports reports))
            = o (_calculate_stats_for_reports reports)) as Hgen.
  { intros g o c Hg0 Ho0 Hopen Hg Ho.
    pose proof (measure_reports
                  (fun st => sumZ (fun kv => g kv.2) (ips st) - o st) (fun _ _ => 0)) as H.
    unfold _calculate_stats_for_reports.
    rewrite <- Z.sub_move_0_r, H; clear H.
    - simpl. rewrite Ho0.
      assert (forall l : list ParsedReport,
                sumZ (fun report => sumZ (fun _ : DmarcRecord => 0) (records report)) l = 0)
        as Hz by (induction l as [|x l IH]; simpl; rewrite ?sumZ_zero; lia).
      rewrite Hz. lia.
    - intros st report. rewrite Hopen. done.
    - intros domain st r. rewrite (source_sum_record g c) by auto. rewrite Ho. lia. }
  repeat split.
  - apply (Hgen ip_count total_messages msg_count_of); done.
  - apply (Hgen ip_dkim_pass dkim_overall_pass
             (fun r => if dkim_ok r then msg_count_of r else 0)); try done;
      intros; simpl; destruct (dkim_ok r); lia.
  - apply (Hgen ip_dkim_fail dkim_overall_fail
             (fun r => if dkim_ok r then 0 else msg_count_of r)); try done;
      intros; simpl; destruct (dkim_ok r); lia.
  - apply (Hgen ip_spf_pass spf_overall_pass
             (fun r => if spf_ok r then msg_count_of r else 0)); try done;
      intros; simpl; destruct (spf_ok r); lia.
  - apply (Hgen ip_spf_fail spf_overall_fail
             (fun r => if spf_ok r then 0 else msg_count_of r)); try done;
      intros; simpl; destruct (spf_ok r); lia.
Qed.

(** *** The histograms add up *)

Lemma hist_total_empty : hist_total ∅ = 0.
Proof. unfold hist_total. by rewrite map_fold_empty. Qed.

Lemma hist_total_add k n h : hist_total (hist_add k n h) = hist_total h + n.
Proof.
  unfold hist_add, hist_get, hist_total.
  destruct (h !! k) as [v|] eqn:Hk; simpl.
  - rewrite <- (insert_delete_eq h k).
    rewrite map_fold_insert_L; [|intros; lia | apply lookup_delete_eq].
    rewrite (map_fold_delete_L _ _ k v h); [lia | intros; lia | done].
  - rewrite map_fold_insert_L; [lia | intros; lia | done].
Qed.

Lemma histograms_open stats report :
  histograms_add_up stats -> histograms_add_up (open_report stats report).
Proof.
  intros (Ho & Hf & Hd & Hi). repeat split; simpl; try done.
  apply (od_update_Forall (fun ds => hist_total (ds_policy_applied ds) = ds_count ds));
    [apply hist_total_empty | done | done].
Qed.

Lemma histograms_record domain stats r :
  histograms_add_up stats -> histograms_add_up (add_record domain stats r).
Proof.
  intros (Ho & Hf & Hd & Hi). repeat split; simpl.
  - rewrite hist_total_add. lia.
  - unfold count_failures. destruct (dkim_ok r), (spf_ok r); rewrite ?hist_total_add; lia.
  - destruct (decide (header_from_of r = domain)); [|done].
    apply (od_update_Forall (fun ds => hist_total (ds_policy_applied ds) = ds_count ds));
      [apply hist_total_empty | | done].
    intros ds Hds. simpl. rewrite hist_total_add. lia.
  - apply (od_update_Forall (fun ip => hist_total (ip_disposition ip) = ip_count ip));
      [apply hist_total_empty | | done].
    intros ip Hip. simpl. rewrite hist_total_add. lia.
Qed.

(** X2.  The histograms detail the counts: the overall dispositions add up
    to [total_messages], the failures by domain to the failed DKIM checks
    plus the failed SPF checks, the dispositions of a domain to its count
    and the dispositions of a source to its count. *)
Theorem histograms_detail_counts reports :
  let stats := _calculate_stats_for_reports reports in
  hist_total (disposition_overall stats) = total_messages stats
  /\ hist_total (failures_by_domain stats)
     = dkim_overall_fail stats + spf_overall_fail stats
  /\ Forall (fun kv => hist_total (ds_policy_applied kv.2) = ds_count kv.2)
            (domain_stats stats)
  /\ Forall (fun kv => hist_total (ip_disposition kv.2) = ip_count kv.2) (ips stats).
Proof.
  unfold _calculate_stats_for_reports.
  apply (invariant_reports (fun _ => True) histograms_add_up).
  - apply histograms_open.
  - intros domain stats r _. apply histograms_record.
  - by apply Forall_forall.
  - repeat split; simpl; try constructor; apply hist_total_empty.
Qed.

(** *** Passing a check is being aligned *)

Lemma passes_aligned_open stats report :
  passes_aligned stats -> passes_aligned (open_report stats report).
Proof.
  intros (Hd & Hi). split; simpl; [|done].
  apply od_update_Forall; [by split | | done].
  intros ds [? ?]. by split.
Qed.

Lemma passes_aligned_record domain stats r :
  0 <= msg_count_of r -> passes_aligned stats -> passes_aligned (add_record domain stats r).
Proof.
  intros Hn (Hd & Hi). split; simpl.
  - destruct (decide (header_from_of r = domain)); [|done].
    apply od_update_Forall; [by split | | done].
    intros ds [? ?]. unfold passes_aligned_domain; simpl.
    destruct (dkim_ok r), (spf_ok r); simpl; lia.
  - apply od_update_Forall; [by split | | done].
    intros ip [? ?]. unfold passes_aligned_source; simpl.
    destruct (dkim_ok r), (spf_ok r); simpl; lia.
Qed.

(** X3.  When no record has a negative message count, every entry of
    [domain_stats] and of [ips] has [dkim_pass <= fully_aligned] and
    [spf_pass <= fully_aligned]: a message that passes one check is counted
    as aligned. *)
Theorem passes_are_aligned reports :
  nonneg_counts reports ->
  Forall (fun kv => passes_aligned_domain kv.2)
         (domain_stats (_calculate_stats_for_reports reports))
  /\ Forall (fun kv => passes_aligned_source kv.2)
            (ips (_calculate_stats_for_reports reports)).
Proof.
  intros Hn. unfold _calculate_stats_for_reports.
  apply (invariant_reports (fun r => 0 <= msg_count_of r) passes_aligned).
  - apply passes_aligned_open.
  - apply passes_aligned_record.
  - exact Hn.
  - split; simpl; constructor.
Qed.

Lemma passes_are_aligned_witness :
  nonneg_counts [report_monitoring; report_enforcing]
  /\ Forall (fun kv => passes_aligned_domain kv.2)
            (domain_stats (_calculate_stats_for_reports [report_monitoring; report_enforcing]))
  /\ Forall (fun kv => passes_aligned_source kv.2)
            (ips (_calculate_stats_for_reports [report_monitoring; report_enforcing])).
Proof.
  split; [|apply passes_are_aligned];
    unfold nonneg_counts; simpl; repeat (constructor; [by vm_compute|]); constructor.
Defined.

(** *** The last report on a domain decides its policy *)

Lemma add_record_domain_other d domain stats r :
  d <> domain ->
  od_get d (domain_stats (add_record domain stats r)) = od_get d (domain_stats stats).
Proof.
  intros Hne. unfold add_record; simpl.
  destruct (decide (header_from_of r = domain)); [|done].
  unfold od_update. by apply od_get_set_ne.
Qed.

Lemma add_record_domain_policy domain stats r policy :
  (exists ds, od_get domain (domain_stats stats) = Some ds
              /\ current_policy_of ds = policy) ->
  exists ds, od_get domain (domain_stats (add_record domain stats r)) = Some ds
             /\ current_policy_of ds = policy.
Proof.
  intros (ds & Hget & Hpol). unfold add_record; simpl.
  destruct (decide (header_from_of r = domain)); [|eauto].
  unfold od_update. rewrite od_get_set_eq, Hget. eauto.
Qed.

Lemma add_report_domain_other d stats report :
  d <> domain_of report ->
  od_get d (domain_stats (add_report stats report)) = od_get d (domain_stats stats).
Proof.
  intros Hne. unfold add_report.
  transitivity (od_get d (domain_stats (open_report stats report))).
  - generalize (open_report stats report). induction (records report) as [|r rs IH];
      intros st; simpl; [done|].
    rewrite IH. by apply add_record_domain_other.
  - unfold open_report, od_update; simpl. by apply od_get_set_ne.
Qed.

Lemma add_report_domain_policy stats report :
  exists ds, od_get (domain_of report) (domain_stats (add_report stats report)) = Some ds
             /\ current_policy_of ds = published_policy report.
Proof.
  unfold add_report.
  assert (exists ds, od_get (domain_of report)
                       (domain_stats (open_report stats report)) = Some ds
                     /\ current_policy_of ds = published_policy report) as Hopen.
  { unfold open_report, od_update; simpl. rewrite od_get_set_eq. eauto. }
  revert Hopen. generalize (open_report stats report).
  induction (records report) as [|r rs IH]; intros st Hst; simpl; [done|].
  apply IH. by apply add_record_domain_policy.
Qed.

Lemma last_report_policy earlier_reports report later_reports :
  Forall (fun r => domain_of r <> domain_of report) later_reports ->
  exists ds,
    od_get (domain_of report)
      (domain_stats
         (_calculate_stats_for_reports (earlier_reports ++ report :: later_reports)))
    = Some ds
    /\ current_policy_of ds = published_policy report.
Proof.
  intros Hlater. rewrite calc_app. simpl.
  generalize (_calculate_stats_for_reports earlier_reports). intros st.
  assert (exists ds, od_get (domain_of report)
                       (domain_stats (fold_left add_report later_reports
                                        (add_report st report))) = Some ds
                     /\ current_policy_of ds = published_policy report)
    as (ds & Hget & Hpol).
  { pose proof (add_report_domain_policy st report) as H. revert H.
    generalize (add_report st report). clear st.
    induction Hlater as [|r rs Hr _ IH]; intros st Hst; simpl; [done|].
    apply IH. by rewrite add_report_domain_other. }
  by exists ds.
Qed.

(** X4.  The policy, the percentage and the subdomain policy of a domain
    are those published by the last report on that domain in the list,
    whatever the earlier reports published. *)
Theorem last_report_decides_policy earlier_reports report later_reports :
  Forall (fun r => domain_of r <> domain_of report) later_reports ->
  exists ds,
    od_get (domain_of report)
      (domain_stats
         (_calculate_stats_for_reports (earlier_reports ++ report :: later_reports)))
    = Some ds
    /\ ds_current_policy ds = (published_policy report).1.1
    /\ ds_current_pct ds = (published_policy report).1.2
    /\ ds_current_sp ds = (published_policy report).2.
Proof.
  intros Hlater.
  destruct (last_report_policy earlier_reports report later_reports Hlater)
    as (ds & Hget & Hpol).
  exists ds. split; [done|]. unfold current_policy_of, published_policy in Hpol.
  injection Hpol as H1 H2 H3. simpl. auto.
Qed.

Lemma last_report_decides_policy_witness :
  Forall (fun r => domain_of r <> domain_of report_enforcing) []
  /\ exists ds,
       od_get (domain_of report_enforcing)
         (domain_stats
            (_calculate_stats_for_reports ([report_monitoring] ++ report_enforcing :: [])))
       = Some ds
       /\ ds_current_policy ds = (published_policy report_enforcing).1.1
       /\ ds_current_pct ds = (published_policy report_enforcing).1.2
       /\ ds_current_sp ds = (published_policy report_enforcing).2.
Proof.
  split; [constructor|].
  apply (last_report_decides_policy [report_monitoring] report_enforcing []). constructor.
Defined.

(** *** The keys of the two dictionaries *)

Lemma od_set_keys {V : Type} k (v : V) d k' :
  k' ∈ map fst (od_set k v d) <-> k' = k \/ k' ∈ map fst d.
Proof.
  rewrite <- !od_get_is_Some. destruct (decide (k = k')) as [->|Hne].
  - rewrite od_get_set_eq. split; [by left | eauto].
  - rewrite od_get_set_ne by done. split; [by right | by intros [->|?]].
Qed.

Lemma od_set_NoDup {V : Type} k (v : V) d :
  NoDup (map fst d) -> NoDup (map fst (od_set k v d)).
Proof.
  induction d as [|[k0 v0] d IH]; simpl; intros Hnd.
  - apply NoDup_singleton.
  - apply NoDup_cons in Hnd as [Hk0 Hnd].
    destruct (decide (k0 = k)) as [->|Hne]; simpl.
    + by apply NoDup_cons.
    + apply NoDup_cons. split; [|by apply IH].
      rewrite od_set_keys. by intros [->|?].
Qed.

Lemma add_report_domain_keys d stats report :
  d ∈ map fst (domain_stats (add_report stats report))
  <-> d = domain_of report \/ d ∈ map fst (domain_stats stats).
Proof.
  rewrite <- !od_get_is_Some. destruct (decide (d = domain_of report)) as [->|Hne].
  - destruct (add_report_domain_policy stats report) as (ds & -> & _).
    split; [by left | eauto].
  - rewrite add_report_domain_other by done. split; [by right | by intros [?|?]].
Qed.

Lemma add_report_domains stats report :
  domains (add_report stats report) = {[domain_of report]} ∪ domains stats.
Proof.
  unfold add_report.
  transitivity (domains (open_report stats report)); [|done].
  generalize (open_report stats report).
  induction (records report) as [|r rs IH]; intros st; simpl; [done|]. by rewrite IH.
Qed.

Lemma add_report_source_keys ip stats report :
  ip ∈ map fst (ips (add_report stats report))
  <-> ip ∈ map fst (ips stats) \/ ip ∈ map source_ip_of (records report).
Proof.
  unfold add_report.
  transitivity (ip ∈ map fst (ips (open_report stats report))
                \/ ip ∈ map source_ip_of (records report)); [|done].
  generalize (open_report stats report).
  induction (records report) as [|r rs IH]; intros st; simpl.
  - split; [by left | intros [?|H]; [done | inversion H]].
  - rewrite IH. unfold add_record at 1; simpl. unfold od_update.
    rewrite od_set_keys, elem_of_cons. tauto.
Qed.

(** X5.  [domain_stats] has one entry for each domain under report and for
    no other domain, also for a domain that received no direct message;
    [domains] holds the same domains; [ips] has one entry for each source
    address of a record and for no other address. *)
Theorem entries_of_the_dictionaries reports :
  let stats := _calculate_stats_for_reports reports in
  (forall d, d ∈ map fst (domain_stats stats) <-> d ∈ map domain_of reports)
  /\ (forall d, d ∈ domains stats <-> d ∈ map domain_of reports)
  /\ (forall ip, ip ∈ map fst (ips stats) <-> ip ∈ map source_ip_of (all_records reports))
  /\ NoDup (map fst (domain_stats stats))
  /\ NoDup (map fst (ips stats)).
Proof.
  simpl. unfold _calculate_stats_for_reports.
  assert (forall st,
    (forall d, d ∈ map fst (domain_stats (fold_left add_report reports st))
               <-> d ∈ map fst (domain_stats st) \/ d ∈ map domain_of reports)
    /\ (forall d, d ∈ domains (fold_left add_report reports st)
                  <-> d ∈ domains st \/ d ∈ map domain_of reports)
    /\ (forall ip, ip ∈ map fst (ips (fold_left add_report reports st))
                   <-> ip ∈ map fst (ips st)
                       \/ ip ∈ map source_ip_of (all_records reports))) as Hkeys.
  { induction reports as [|report reports IH]; intros st.
    - split; [|split]; intros x; simpl;
        (split; [by left | intros [?|H]; [done | inversion H]]).
    - destruct (IH (add_report st report)) as (Hd & Hs & Hi). split; [|split].
      + intros d. simpl. rewrite Hd, add_report_domain_keys, elem_of_cons. tauto.
      + intros d. simpl.
        rewrite Hs, add_report_domains, elem_of_cons, elem_of_union, elem_of_singleton.
        tauto.
      + intros ip. simpl. rewrite Hi, add_report_source_keys.
        unfold all_records; simpl. rewrite map_app, elem_of_app. tauto.
  }
  destruct (Hkeys new_stats) as (Hd & Hs & Hi).
  split; [|split; [|split]].
  - intros d. rewrite Hd. simpl. split; [intros [H|?]; [inversion H | done] | by right].
  - intros d. rewrite Hs. simpl.
    split; [intros [H|?]; [by apply not_elem_of_empty in H | done] | by right].
  - intros ip. rewrite Hi. simpl. split; [intros [H|?]; [inversion H | done] | by right].
  - apply (invariant_reports (fun _ => True)
             (fun st => NoDup (map fst (domain_stats st)) /\ NoDup (map fst (ips st)))).
    + intros st report [? ?]. split; [|done]. simpl. by apply od_set_NoDup.
    + intros domain st r _ [? ?]. split; simpl.
      * destruct (decide (header_from_of r = domain)); [|done]. by apply od_set_NoDup.
      * by apply od_set_NoDup.
    + by apply Forall_forall.
    + split; simpl; constructor.
Qed.

(** *** The observed date range *)

Lemma earlier_fold_le reports (m0 : option datetime) b :
  m0 = Some b \/ Exists (fun r => md_begin_date_dt (metadata r) = Some b) reports ->
  exists a,
    fold_left (fun m r => earlier m (md_begin_date_dt (metadata r))) reports m0 = Some a
    /\ a <= b.
Proof.
  revert m0 b. induction reports as [|r reports IH]; intros m0 b H; simpl.
  - destruct H as [->|H]; [exists b; split; [done|lia] | inversion H].
  - destruct H as [->|H].
    + destruct (md_begin_date_dt (metadata r)) as [b1|] eqn:Hb1; simpl.
      * destruct (b1 <? b) eqn:Hlt.
        -- destruct (IH (Some b1) b1 (or_introl eq_refl)) as (a & Ha & Hle).
           exists a. split; [done|]. apply Z.ltb_lt in Hlt. lia.
        -- apply IH. by left.
      * apply IH. by left.
    + apply Exists_cons in H as [H|H].
      * rewrite H. destruct m0 as [b0|]; simpl.
        -- destruct (b <? b0) eqn:Hlt.
           ++ apply IH. by left.
           ++ destruct (IH (Some b0) b0 (or_introl eq_refl)) as (a & Ha & Hle).
              exists a. split; [done|]. apply Z.ltb_ge in Hlt. lia.
        -- apply IH. by left.
      * apply IH. by right.
Qed.

Lemma earlier_fold_from reports (m0 : option datetime) a :
  fold_left (fun m r => earlier m (md_begin_date_dt (metadata r))) reports m0 = Some a ->
  m0 = Some a \/ Exists (fun r => md_begin_date_dt (metadata r) = Some a) reports.
Proof.
  revert m0. induction reports as [|r reports IH]; intros m0; simpl.
  - by left.
  - intros H. apply IH in H as [H|H]; [|right; by right].
    destruct (md_begin_date_dt (metadata r)) as [b1|] eqn:Hb1, m0 as [b0|]; simpl in H.
    + destruct (b1 <? b0); [right; left; simpl; congruence | by left].
    + right; left; simpl; congruence.
    + by left.
    + by left.
Qed.

Lemma add_report_date_range stats report :
  date_range_begin (add_report stats report)
  = earlier (date_range_begin stats) (md_begin_date_dt (metadata report))
  /\ date_range_end (add_report stats report)
     = later (date_range_end stats) (md_end_date_dt (metadata report)).
Proof.
  unfold add_report.
  change (date_range_begin (fold_left (add_record (domain_of report)) (records report)
                              (open_report stats report))
          = date_range_begin (open_report stats report)
          /\ date_range_end (fold_left (add_record (domain_of report)) (records report)
                               (open_report stats report))
             = date_range_end (open_report stats report)).
  generalize (open_report stats report).
  induction (records report) as [|r rs IH]; intros st; simpl; [done|].
  destruct (IH (add_record (domain_of report) st r)) as [-> ->]. done.
Qed.

Lemma date_range_fold reports stats :
  date_range_begin (fold_left add_report reports stats)
  = fold_left (fun m r => earlier m (md_begin_date_dt (metadata r))) reports
              (date_range_begin stats)
  /\ date_range_end (fold_left add_report reports stats)
     = fold_left (fun m r => later m (md_end_date_dt (metadata r))) reports
                 (date_range_end stats).
Proof.
  revert stats. induction reports as [|report reports IH]; intros stats; simpl; [done|].
  destruct (IH (add_report stats report)) as [-> ->].
  by destruct (add_report_date_range stats report) as [-> ->].
Qed.

(** X6.  The observed date range of the statistics runs from the earliest
    begin date to the latest end date of the reports; a bound is [None]
    exactly when no report carries that date.  The end of the range is the
    date [analyze_reports] anchors its windows at. *)
Theorem date_range_is_observed reports :
  let stats := _calculate_stats_for_reports reports in
  observed_begin reports (date_range_begin stats)
  /\ observed_end reports (date_range_end stats)
  /\ date_range_end stats = find_max_end_date reports.
Proof.
  simpl. unfold _calculate_stats_for_reports.
  destruct (date_range_fold reports new_stats) as [-> ->]. simpl.
  split; [|split; [|done]].
  - destruct (fold_left _ reports None) as [a|] eqn:Ha; simpl.
    + split.
      * by apply earlier_fold_from in Ha as [[=]|Ha].
      * apply Forall_forall. intros r Hr.
        destruct (md_begin_date_dt (metadata r)) as [b|] eqn:Hb; [|done].
        assert (Exists (fun r => md_begin_date_dt (metadata r) = Some b) reports) as Hex
          by (apply Exists_exists; eauto).
        destruct (earlier_fold_le reports None b (or_intror Hex)) as (a' & Ha' & Hle).
        rewrite Ha in Ha'. injection Ha' as <-. lia.
    + apply Forall_forall. intros r Hr.
      destruct (md_begin_date_dt (metadata r)) as [b|] eqn:Hb; [|done].
      assert (Exists (fun r => md_begin_date_dt (metadata r) = Some b) reports) as Hex
        by (apply Exists_exists; eauto).
      destruct (earlier_fold_le reports None b (or_intror Hex)) as (a' & Ha' & _).
      by rewrite Ha in Ha'.
  - destruct (fold_left _ reports None) as [a|] eqn:Ha; simpl.
    + split.
      * by apply later_fold_from in Ha as [[=]|Ha].
      * apply Forall_forall. intros r Hr.
        destruct (end_date_of r) as [e|] eqn:He; [|done].
        assert (Exists (fun r => end_date_of r = Some e) reports) as Hex
          by (apply Exists_exists; eauto).
        destruct (later_fold_ge reports None e (or_intror Hex)) as (a' & Ha' & Hle).
        rewrite Ha in Ha'. injection Ha' as <-. lia.
    + apply Forall_forall. intros r Hr.
      destruct (end_date_of r) as [e|] eqn:He; [|done].
      assert (Exists (fun r => end_date_of r = Some e) reports) as Hex
        by (apply Exists_exists; eauto).
      destruct (later_fold_ge reports None e (or_intror Hex)) as (a' & Ha' & _).
      by rewrite Ha in Ha'.
Qed.

(** *** The order of the reports *)

Lemma measure_perm (measure : Stats -> Z) (contribution : string -> DmarcRecord -> Z)
    reports reports' :
  (forall stats report, measure (open_report stats report) = measure stats) ->
  (forall domain stats r,
     measure (add_record domain stats r) = measure stats + contribution domain r) ->
  Permutation reports reports' ->
  measure (_calculate_stats_for_reports reports)
  = measure (_calculate_stats_for_reports reports').
Proof.
  intros Hopen Hrec Hperm. unfold _calculate_stats_for_reports.
  rewrite !(measure_reports measure contribution Hopen Hrec).
  f_equal. by apply sumZ_perm.
Qed.

Lemma domain_count_open d stats report :
  domain_count d (open_report stats report) = domain_count d stats.
Proof.
  unfold domain_count, open_report, od_update; simpl.
  destruct (decide (domain_of report = d)) as [->|Hne].
  - rewrite od_get_set_eq. by destruct (od_get d (domain_stats stats)).
  - by rewrite od_get_set_ne.
Qed.

Lemma domain_count_record d domain stats r :
  domain_count d (add_record domain stats r)
  = domain_count d stats + (if decide (domain = d) then direct_count domain r else 0).
Proof.
  unfold domain_count, add_record, direct_count, od_update; simpl.
  destruct (decide (header_from_of r = domain)) as [Hhf|Hhf].
  - destruct (decide (domain = d)) as [->|Hne].
    + rewrite od_get_set_eq. by destruct (od_get d (domain_stats stats)).
    + rewrite od_get_set_ne by done. lia.
  - destruct (decide (domain = d)); lia.
Qed.

(** X7.  The counters do not depend on the order of the reports: a
    permutation of the list changes neither [total_messages], nor the
    overall passes and failures, nor the failures of any claimed domain, nor
    the overall count of any disposition, nor the count of any domain. *)
Theorem counters_ignore_order reports reports' :
  Permutation reports reports' ->
  same_counters (_calculate_stats_for_reports reports)
                (_calculate_stats_for_reports reports').
Proof.
  intros Hperm. unfold same_counters.
  split; [|split; [|split; [|split; [|split; [|split; [|split]]]]]].
  - apply (measure_perm total_messages (fun _ => msg_count_of)); done.
  - apply (measure_perm dkim_overall_pass
             (fun _ r => if dkim_ok r then msg_count_of r else 0)); try done.
    intros; simpl; destruct (dkim_ok r); lia.
  - apply (measure_perm dkim_overall_fail
             (fun _ r => if dkim_ok r then 0 else msg_count_of r)); try done.
    intros; simpl; destruct (dkim_ok r); lia.
  - apply (measure_perm spf_overall_pass
             (fun _ r => if spf_ok r then msg_count_of r else 0)); try done.
    intros; simpl; destruct (spf_ok r); lia.
  - apply (measure_perm spf_overall_fail
             (fun _ r => if spf_ok r then 0 else msg_count_of r)); try done.
    intros; simpl; destruct (spf_ok r); lia.
  - intros d.
    apply (measure_perm (fun st => hist_get (failures_by_domain st) d)
             (fun _ => failure_share d)); try done.
    intros. apply failures_record.
  - intros d.
    apply (measure_perm (fun st => hist_get (disposition_overall st) d)
             (fun _ r => if decide (disposition_of r = d) then msg_count_of r else 0));
      try done.
    intros. simpl. by rewrite hist_get_add.
  - intros d.
    apply (measure_perm (domain_count d)
             (fun domain r => if decide (domain = d) then direct_count domain r else 0));
      try done.
    + intros. apply domain_count_open.
    + intros. apply domain_count_record.
Qed.

Lemma counters_ignore_order_witness :
  Permutation [report_monitoring; report_enforcing] [report_enforcing; report_monitoring]
  /\ same_counters (_calculate_stats_for_reports [report_monitoring; report_enforcing])
                   (_calculate_stats_for_reports [report_enforcing; report_monitoring]).
Proof.
  split; [apply perm_swap|]. apply counters_ignore_order. apply perm_swap.
Defined.

(** The published policy does depend on the order. *)
Example policy_depends_on_order :
  (ds_current_policy <$> od_get "example.com"
     (domain_stats (_calculate_stats_for_reports [report_monitoring; report_enforcing])))
  = Some "reject"
  /\ (ds_current_policy <$> od_get "example.com"
        (domain_stats (_calculate_stats_for_reports [report_enforcing; report_monitoring])))
     = Some "none".
Proof. by vm_compute. Qed.

(** ** Further properties of the time-window selector *)





Example unknown_key_raises :
  analyze_reports 0 [report_monitoring] (Some ["30"; "7"; "all"]) = Raise (KeyError "7").
Proof. by vm_compute. Qed.

(** *** The entries of the bundle *)

Lemma fold_od_set_get {V : Type} (v : V) keys ps0 k :
  od_get k (fold_left (fun ps p => od_set p v ps) keys ps0)
  = if decide (k ∈ keys) then Some v else od_get k ps0.
Proof.
  revert ps0. induction keys as [|x keys IH]; intros ps0; simpl; [done|].
  rewrite IH. destruct (decide (k ∈ keys)) as [Hin|Hout].
  - rewrite decide_True; [done | by right].
  - destruct (decide (k = x)) as [->|Hne].
    + rewrite decide_True by left. apply od_get_set_eq.
    + rewrite decide_False by (by intros [?|?]%elem_of_cons).
      by apply od_get_set_ne.
Qed.

Lemma fold_od_set_NoDup {V : Type} (v : V) keys ps0 :
  NoDup (map fst ps0) -> NoDup (map fst (fold_left (fun ps p => od_set p v ps) keys ps0)).
Proof.
  revert ps0. induction keys as [|x keys IH]; intros ps0 Hnd; simpl; [done|].
  apply IH. by apply od_set_NoDup.
Qed.

Lemma for_each_store_NoDup reports anchor keys ps0 ps :
  for_each (store_period reports anchor) keys ps0 = Ok ps ->
  NoDup (map fst ps0) -> NoDup (map fst ps).
Proof.
  revert ps0. induction keys as [|x keys IH]; intros ps0; simpl.
  - by intros [= ->].
  - unfold store_period at 1.
    destruct (period_entry reports anchor x) as [e|err]; simpl; [|done].
    intros Hrest Hnd. apply (IH _ Hrest). by apply od_set_NoDup.
Qed.

(** X9.  The bundle has exactly one entry for each requested period key
    and no other entry, for an empty list of reports as for any other. *)
Theorem one_entry_per_requested_period now reports keys bundle :
  analyze_reports now reports keys = Ok bundle ->
  (forall k, k ∈ map fst (periods bundle) <-> k ∈ requested keys)
  /\ NoDup (map fst (periods bundle)).
Proof.
  unfold analyze_reports, requested. destruct reports as [|r0 reports].
  - intros [= <-]. simpl. split.
    + intros k. rewrite <- od_get_is_Some, fold_od_set_get.
      destruct (decide (k ∈ default ["30"; "all"] keys)); [by split; eauto|].
      split; [by intros [? [=]] | done].
    + apply fold_od_set_NoDup. constructor.
  - destruct (for_each _ _ _) as [ps|] eqn:Hps; simpl; [|done].
    destruct (select_default_period ps) as [choice|]; simpl; [|done].
    intros [= <-]. simpl. split.
    + intros k. rewrite <- od_get_is_Some. split.
      * intros Hk. by destruct (for_each_store_keys _ _ _ _ _ _ Hps Hk) as [?|[? [=]]].
      * intros Hk. destruct (for_each_store _ _ _ _ _ Hps) as [Hin _].
        destruct (Hin k Hk) as (e & _ & ->). eauto.
    + apply (for_each_store_NoDup _ _ _ _ _ Hps). constructor.
Qed.

Lemma one_entry_per_requested_period_witness :
  analyze_reports 0 reports_three (Some ["30"; "90"; "all"]) = Ok bundle_three
  /\ (forall k, k ∈ map fst (periods bundle_three)
                <-> k ∈ requested (Some ["30"; "90"; "all"]))
  /\ NoDup (map fst (periods bundle_three)).
Proof.
  split; [exact bundle_three_computed|].
  apply (one_entry_per_requested_period 0 reports_three). exact bundle_three_computed.
Defined.

Lemma period_entry_meaningful reports anchor k e :
  period_entry reports anchor k = Ok e ->
  is_meaningful e = (0 <? total_messages (pe_stats e)).
Proof.
  unfold period_entry. destruct (od_get k TIME_PERIODS) as [days|]; simpl; [|done].
  destruct (decide (k = "all")); [by intros [= <-]|].
  destruct days as [days|]; [|done]. intros [= <-]. simpl.
  destruct (List.filter _ reports); simpl; [done|].
  by destruct (0 <? total_messages _).
Qed.

(** X10.  A period is flagged meaningful exactly when its statistics count
    at least one message: the test on the number of reports in the window
    adds nothing to it. *)
Theorem meaningful_iff_messages now reports keys bundle k entry :
  analyze_reports now reports keys = Ok bundle ->
  od_get k (periods bundle) = Some entry ->
  is_meaningful entry = (0 <? total_messages (pe_stats entry)).
Proof.
  unfold analyze_reports. destruct reports as [|r0 reports].
  - intros [= <-]. simpl. rewrite fold_od_set_get.
    destruct (decide _); [|done]. by intros [= <-].
  - destruct (for_each _ _ _) as [ps|] eqn:Hps; simpl; [|done].
    destruct (select_default_period ps) as [choice|]; simpl; [|done].
    intros [= <-]. simpl. intros Hget.
    assert (is_Some (od_get k ps)) as Hk by eauto.
    destruct (for_each_store_keys _ _ _ _ _ _ Hps Hk) as [Hin|[? [=]]].
    destruct (for_each_store _ _ _ _ _ Hps) as [Hall _].
    destruct (Hall k Hin) as (e & He & Hget'). rewrite Hget in Hget'.
    injection Hget' as <-. by eapply period_entry_meaningful.
Qed.

Lemma meaningful_iff_messages_witness :
  analyze_reports 0 reports_three (Some ["30"; "90"; "all"]) = Ok bundle_three
  /\ od_get "90" (periods bundle_three) = Some period_90
  /\ is_meaningful period_90 = (0 <? total_messages (pe_stats period_90)).
Proof.
  split; [exact bundle_three_computed|]. split; [by vm_compute|].
  apply (meaningful_iff_messages 0 reports_three (Some ["30"; "90"; "all"])
           bundle_three "90"); [exact bundle_three_computed | by vm_compute].
Defined.

(** X11.  The period ['all'] holds the statistics of all the reports, with
    no number of days. *)
Theorem all_period_covers_every_report now reports keys bundle :
  reports <> [] ->
  analyze_reports now reports keys = Ok bundle ->
  "all" ∈ requested keys ->
  exists entry,
    od_get "all" (periods bundle) = Some entry
    /\ pe_stats entry = _calculate_stats_for_reports reports
    /\ pe_days entry = Some None.
Proof.
  intros Hne Hb Hall.
  destruct (analyze_reports_nonempty _ _ _ _ Hne Hb) as (ps & choice & Hps & _ & ->).
  destruct (for_each_store _ _ _ _ _ Hps) as [Hin _].
  destruct (Hin "all" Hall) as (entry & He & Hget).
  exists entry. split; [done|]. by injection He as <-.
Qed.

Lemma all_period_covers_every_report_witness :
  reports_three <> []
  /\ analyze_reports 0 reports_three (Some ["30"; "90"; "all"]) = Ok bundle_three
  /\ "all" ∈ requested (Some ["30"; "90"; "all"])
  /\ exists entry,
       od_get "all" (periods bundle_three) = Some entry
       /\ pe_stats entry = _calculate_stats_for_reports reports_three
       /\ pe_days entry = Some None.
Proof.
  assert ("all" ∈ requested (Some ["30"; "90"; "all"])) as Hall.
  { simpl. right. right. left. }
  split; [done|]. split; [exact bundle_three_computed|]. split; [exact Hall|].
  apply (all_period_covers_every_report 0 reports_three (Some ["30"; "90"; "all"]));
    [done | exact bundle_three_computed | exact Hall].
Defined.

(** *** The wall clock *)

Lemma for_each_ext {A S : Type} (body1 body2 : S -> A -> result S) l s :
  (forall s x, body1 s x = body2 s x) -> for_each body1 l s = for_each body2 l s.
Proof.
  intros Hext. revert s. induction l as [|x l IH]; intros s; simpl; [done|].
  rewrite Hext. destruct (body2 s x); simpl; auto.
Qed.

Lemma find_max_end_date_None reports :
  find_max_end_date reports = None -> Forall (fun r => end_date_of r = None) reports.
Proof.
  intros Hnone. apply Forall_forall. intros r Hr.
  destruct (end_date_of r) as [e|] eqn:He; [|done].
  assert (Exists (fun r => end_date_of r = Some e) reports) as Hex
    by (apply Exists_exists; eauto).
  destruct (later_fold_ge reports None e (or_intror Hex)) as (a & Ha & _).
  unfold find_max_end_date in Hnone. congruence.
Qed.

Lemma filter_undated start reports :
  Forall (fun r => end_date_of r = None) reports ->
  List.filter (ends_since start) reports = [].
Proof.
  induction 1 as [|r reports Hr _ IH]; simpl; [done|].
  unfold ends_since at 1. unfold end_date_of in Hr. by rewrite Hr.
Qed.

(** X12.  The result of [analyze_reports] does not depend on the wall
    clock: [datetime.now()] is read only when no report carries an end date,
    and then every numeric window is empty whatever the time is. *)
Theorem wall_clock_is_irrelevant now now' reports keys :
  analyze_reports now reports keys = analyze_reports now' reports keys.
Proof.
  unfold analyze_reports. destruct reports as [|r0 reports]; [done|].
  generalize (r0 :: reports). intros all.
  destruct (find_max_end_date all) as [anchor|] eqn:Hmax; simpl; [done|].
  apply find_max_end_date_None in Hmax.
  rewrite (for_each_ext (store_period all now) (store_period all now')); [done|].
  intros ps k. unfold store_period, period_entry.
  destruct (od_get k TIME_PERIODS) as [days|]; simpl; [|done].
  destruct (decide (k = "all")); [done|]. destruct days as [days|]; [|done].
  cbv zeta. by rewrite !(filter_undated _ _ Hmax).
Qed.

(** *** Longer windows *)

Lemma sum_filter_le {A : Type} (g : A -> Z) (p q : A -> bool) (l : list A) :
  (forall x, p x = true -> q x = true) ->
  Forall (fun x => 0 <= g x) l ->
  sumZ g (List.filter p l) <= sumZ g (List.filter q l).
Proof.
  intros Hpq. induction 1 as [|x l Hx _ IH]; simpl; [lia|].
  destruct (p x) eqn:Hp.
  - rewrite (Hpq x Hp). simpl. lia.
  - destruct (q x); simpl; lia.
Qed.

Lemma filter_all {A : Type} (l : list A) : List.filter (fun _ => true) l = l.
Proof. induction l as [|x l IH]; simpl; congruence. Qed.

Lemma total_messages_filter_le (p q : ParsedReport -> bool) reports :
  (forall r, p r = true -> q r = true) ->
  nonneg_counts reports ->
  total_messages (_calculate_stats_for_reports (List.filter p reports))
  <= total_messages (_calculate_stats_for_reports (List.filter q reports)).
Proof.
  intros Hpq Hn. rewrite !total_messages_sum, <- !sumZ_all_records.
  apply sum_filter_le; [done|].
  apply Forall_all_records in Hn. eapply Forall_impl; [exact Hn|].
  intros report Hr. by apply sumZ_nonneg.
Qed.

(** X13.  When no record has a negative message count, a longer window
    counts at least the messages of a shorter one: if a numeric period is
    meaningful, so is every requested numeric period of more days, and so
    is ['all'] when it is requested. *)
Theorem longer_periods_stay_meaningful now reports keys bundle k d k' :
  nonneg_counts reports ->
  analyze_reports now reports keys = Ok bundle ->
  numeric_period k d ->
  meaningful_in (periods bundle) k = true ->
  k' ∈ requested keys ->
  reaches_back d k' ->
  meaningful_in (periods bundle) k' = true.
Proof.
  intros Hn Hb Hnum Hk Hk' Hreach.
  assert (reports <> []) as Hne.
  { intros ->. unfold analyze_reports in Hb. injection Hb as <-.
    unfold meaningful_in in Hk. simpl in Hk. rewrite fold_od_set_get in Hk.
    by destruct (decide _). }
  destruct (analyze_reports_nonempty _ _ _ _ Hne Hb) as (ps & choice & Hps & _ & ->).
  simpl in *. set (anchor := default now (find_max_end_date reports)) in *.
  destruct (for_each_store _ _ _ _ _ Hps) as [Hin _].
  pose proof (meaningful_in_present _ _ Hk) as Hpres.
  destruct (for_each_store_keys _ _ _ _ _ _ Hps Hpres) as [Hkin|[? [=]]].
  destruct (Hin k Hkin) as (e & He & Hget).
  destruct (Hin k' Hk') as (e' & He' & Hget').
  unfold meaningful_in in *. rewrite Hget in Hk. rewrite Hget'.
  rewrite (period_entry_meaningful _ _ _ _ He) in Hk.
  rewrite (period_entry_meaningful _ _ _ _ He'). apply Z.ltb_lt in Hk. apply Z.ltb_lt.
  unfold period_entry in He. unfold numeric_period in Hnum. rewrite Hnum in He.
  simpl in He. destruct (decide (k = "all")) as [->|_]; [by vm_compute in Hnum|].
  injection He as <-. simpl in Hk.
  eapply Z.lt_le_trans; [exact Hk|].
  unfold period_entry in He'. destruct Hreach as [->|(d' & Hnum' & Hle)].
  - simpl in He'. injection He' as <-. simpl.
    rewrite <- (filter_all reports) at 2. by apply total_messages_filter_le.
  - unfold numeric_period in Hnum'. rewrite Hnum' in He'. simpl in He'.
    destruct (decide (k' = "all")) as [->|_]; [by vm_compute in Hnum'|].
    injection He' as <-. simpl. apply total_messages_filter_le; [|done].
    intros r. unfold ends_since, minus_days.
    destruct (md_end_date_dt (metadata r)); [|done].
    rewrite !bool_decide_eq_true. lia.
Qed.

Lemma longer_periods_stay_meaningful_witness :
  nonneg_counts reports_three
  /\ analyze_reports 0 reports_three (Some ["30"; "90"; "all"]) = Ok bundle_three
  /\ numeric_period "90" 90
  /\ meaningful_in (periods bundle_three) "90" = true
  /\ "all" ∈ requested (Some ["30"; "90"; "all"])
  /\ reaches_back 90 "all"
  /\ meaningful_in (periods bundle_three) "all" = true.
Proof.
  assert (nonneg_counts reports_three) as Hn.
  { unfold nonneg_counts; simpl; repeat (constructor; [by vm_compute|]); constructor. }
  assert ("all" ∈ requested (Some ["30"; "90"; "all"])) as Hall.
  { simpl. right. right. left. }
  split; [exact Hn|]. split; [exact bundle_three_computed|]. split; [reflexivity|].
  split; [by vm_compute|]. split; [exact Hall|]. split; [by left|].
  apply (longer_periods_stay_meaningful 0 reports_three (Some ["30"; "90"; "all"])
           bundle_three "90" 90 "all");
    [exact Hn | exact bundle_three_computed | reflexivity | by vm_compute
     | exact Hall | by left].
Defined.

(** *** The default period *)

(** X14.  When some period of the bundle is meaningful, the default period
    is a meaningful period. *)
Theorem default_period_is_meaningful now reports keys bundle k :
  analyze_reports now reports keys = Ok bundle ->
  meaningful_in (periods bundle) k = true ->
  exists k0, default_period bundle = Some (Some k0)
             /\ meaningful_in (periods bundle) k0 = true.
Proof.
  intros Hb Hk.
  assert (reports <> []) as Hne.
  { intros ->. unfold analyze_reports in Hb. injection Hb as <-.
    unfold meaningful_in in Hk. simpl in Hk. rewrite fold_od_set_get in Hk.
    by destruct (decide _). }
  destruct (analyze_reports_nonempty _ _ _ _ Hne Hb) as (ps & choice & Hps & Hsel & ->).
  simpl in *. unfold select_default_period in Hsel.
  destruct (meaningful_in ps "30") eqn:H30.
  { injection Hsel as <-. by exists "30". }
  destruct (sorted_by period_order (map fst ps)) as [ordered|] eqn:Hord; simpl in Hsel; [|done].
  destruct (List.find (meaningful_in ps) ordered) as [x|] eqn:Hfind.
  - injection Hsel as <-. exists x. split; [done|].
    by destruct (sorted_by_find_Some _ _ _ _ _ Hord Hfind) as (_ & Hx & _).
  - pose proof (meaningful_in_present _ _ Hk) as Hpres. apply od_get_is_Some in Hpres.
    rewrite (sorted_by_find_None _ _ _ _ k Hord Hfind Hpres) in Hk. done.
Qed.

Lemma default_period_is_meaningful_witness :
  analyze_reports 0 reports_three (Some ["30"; "90"; "all"]) = Ok bundle_three
  /\ meaningful_in (periods bundle_three) "all" = true
  /\ exists k0, default_period bundle_three = Some (Some k0)
                /\ meaningful_in (periods bundle_three) k0 = true.
Proof.
  split; [exact bundle_three_computed|]. split; [by vm_compute|].
  apply (default_period_is_meaningful 0 reports_three (Some ["30"; "90"; "all"])
           bundle_three "all"); [exact bundle_three_computed | by vm_compute].
Defined.

(** ** Further properties of the recommendation engine *)

(** What holds of the body of the loop holds of every entry, in the order
    of [domain_stats]. *)
Lemma recommendations_Forall2 (P : string * DomainStats -> DomainRecommendation -> Prop)
    bundle key period_data :
  (forall stats days domain ds, P (domain, ds) (recommend_domain stats days domain ds)) ->
  od_get (resolve_period_key bundle key) (periods bundle) = Some period_data ->
  exists recs,
    generate_policy_recommendations bundle key = Ok recs
    /\ Forall2 P (domain_stats (pe_stats period_data)) recs.
Proof.
  intros HP Hget. unfold generate_policy_recommendations. rewrite Hget.
  eexists. split; [reflexivity|].
  apply Forall2_map_r. intros [domain ds]. apply HP.
Qed.




(** *** The lines of an entry *)

Lemma policy_progression_tagged ds :
  Forall (fun line => tagged line = true) (policy_progression ds).
Proof.
  unfold policy_progression.
  repeat match goal with
         | |- Forall _ (if ?b then _ else _) => destruct b
         end;
    each_line ltac:(reflexivity).
Qed.

Lemma authentication_lines_tagged ds :
  Forall (fun line => tagged line = true) (authentication_lines ds).
Proof. unfold authentication_lines. each_line ltac:(reflexivity). Qed.

(** X16.  Every entry has one of two shapes.  For a domain without direct
    messages it carries the accumulator's statistics and the single line
    that starts with [No data available].  Otherwise it carries a snapshot,
    its first line starts with [INFO:] and every further line starts with one
    of the twelve category tags, [MAINTAIN:] among them. *)
Theorem entries_are_well_tagged bundle key period_data :
  od_get (resolve_period_key bundle key) (periods bundle) = Some period_data ->
  exists recs,
    generate_policy_recommendations bundle key = Ok recs
    /\ Forall2 (fun kv entry =>
                  well_tagged entry
                  /\ (ds_count kv.2 = 0
                      <-> exists ds, rec_stats entry = RawDomainStats ds))
               (domain_stats (pe_stats period_data)) recs.
Proof.
  apply recommendations_Forall2. intros stats days domain ds.
  unfold recommend_domain, well_tagged. simpl.
  destruct (ds_count ds =? 0) eqn:Hcount; simpl.
  - split.
    + eexists. split; [reflexivity|]. reflexivity.
    + apply Z.eqb_eq in Hcount. split; [eauto | done].
  - split.
    + eexists _, _. split; [reflexivity|]. split; [reflexivity|].
      apply Forall_app. split;
        [apply policy_progression_tagged | apply authentication_lines_tagged].
    + apply Z.eqb_neq in Hcount. split; [done | by intros [? [=]]].
Qed.

Lemma entries_are_well_tagged_witness :
  od_get (resolve_period_key bundle_three (Some "90")) (periods bundle_three)
  = Some period_90
  /\ exists recs,
       generate_policy_recommendations bundle_three (Some "90") = Ok recs
       /\ Forall2 (fun kv entry =>
                     well_tagged entry
                     /\ (ds_count kv.2 = 0
                         <-> exists ds, rec_stats entry = RawDomainStats ds))
                  (domain_stats (pe_stats period_90)) recs.
Proof.
  split; [by vm_compute|].
  apply (entries_are_well_tagged bundle_three (Some "90") period_90). by vm_compute.
Defined.

(** X17.  For a domain at [p=none] no line advises on the subdomain policy
    or warns about the diversity of the sources, whatever its statistics
    are: both rules apply to enforcing policies only. *)
Theorem monitoring_gets_no_enforcement_advice bundle key period_data :
  od_get (resolve_period_key bundle key) (periods bundle) = Some period_data ->
  exists recs,
    generate_policy_recommendations bundle key = Ok recs
    /\ Forall2 (fun kv entry =>
                  ds_current_policy kv.2 = "none" ->
                  no_enforcement_advice (recommendations entry))
               (domain_stats (pe_stats period_data)) recs.
Proof.
  apply recommendations_Forall2. intros stats days domain ds. simpl. intros Hnone.
  unfold recommend_domain, no_enforcement_advice.
  destruct (ds_count ds =? 0); simpl.
  - constructor; [|constructor]. split; reflexivity.
  - constructor; [split; reflexivity|]. apply Forall_app. split.
    + unfold policy_progression. rewrite Hnone. rewrite decide_True by done.
      each_line ltac:(split; reflexivity).
    + unfold authentication_lines. rewrite Hnone.
      rewrite (bool_decide_false ("none" <> "none")) by (by intros H).
      rewrite !andb_false_r. simpl.
      each_line ltac:(split; reflexivity).
Qed.

Lemma monitoring_gets_no_enforcement_advice_witness :
  od_get (resolve_period_key bundle_30_only (Some "30")) (periods bundle_30_only)
  = Some period_30_only
  /\ exists recs,
       generate_policy_recommendations bundle_30_only (Some "30") = Ok recs
       /\ Forall2 (fun kv entry =>
                     ds_current_policy kv.2 = "none" ->
                     no_enforcement_advice (recommendations entry))
                  (domain_stats (pe_stats period_30_only)) recs.
Proof.
  split; [by vm_compute|].
  apply (monitoring_gets_no_enforcement_advice bundle_30_only (Some "30") period_30_only).
  by vm_compute.
Defined.

Lemma no_line_starting tag lines :
  Forall (fun line => String.prefix tag line = false) lines ->
  ~ has_line_starting tag lines.
Proof.
  unfold has_line_starting. induction 1 as [|line lines Hline _ IH]; intros Hex.
  - inversion Hex.
  - apply Exists_cons in Hex as [Hex|Hex]; [congruence | auto].
Qed.

Lemma policy_progression_not_critical ds tag :
  tag = "CRITICAL: DKIM" \/ tag = "CRITICAL: SPF" ->
  Forall (fun line => String.prefix tag line = false) (policy_progression ds).
Proof.
  intros [-> | ->]; unfold policy_progression;
    repeat match goal with
           | |- Forall _ (if ?b then _ else _) => destruct b
           end;
    each_line ltac:(reflexivity).
Qed.

(** X18.  In every entry a line that starts with [CRITICAL: DKIM] comes
    with a line that starts with [DKIM ISSUE:], and a line that starts with
    [CRITICAL: SPF] with one that starts with [SPF ISSUE:]: a failure is
    escalated only where the issue is reported. *)
Theorem critical_lines_follow_issue_lines bundle key period_data :
  od_get (resolve_period_key bundle key) (periods bundle) = Some period_data ->
  exists recs,
    generate_policy_recommendations bundle key = Ok recs
    /\ Forall2 (fun kv entry => critical_with_issue (recommendations entry))
               (domain_stats (pe_stats period_data)) recs.
Proof.
  apply recommendations_Forall2. intros stats days domain ds.
  unfold recommend_domain, critical_with_issue.
  destruct (ds_count ds =? 0); simpl.
  { split; intros H; exfalso; revert H; apply no_line_starting;
      (constructor; [reflexivity | constructor]). }
  split; intros H.
  - destruct (float_lt (dkim_pass_rate ds) f0_9) eqn:Hissue.
    + right. apply Exists_app. right. unfold authentication_lines. rewrite Hissue.
      simpl. left. reflexivity.
    + exfalso. revert H. apply no_line_starting.
      constructor; [reflexivity|]. apply Forall_app. split.
      * apply policy_progression_not_critical. by left.
      * unfold authentication_lines. rewrite Hissue. simpl.
        each_line ltac:(reflexivity).
  - destruct (float_lt (spf_pass_rate ds) f0_9) eqn:Hissue.
    + right. apply Exists_app. right. unfold authentication_lines. rewrite Hissue.
      apply Exists_app. right. apply Exists_app. left. left. reflexivity.
    + exfalso. revert H. apply no_line_starting.
      constructor; [reflexivity|]. apply Forall_app. split.
      * apply policy_progression_not_critical. by right.
      * unfold authentication_lines. rewrite Hissue. simpl.
        each_line ltac:(reflexivity).
Qed.

Lemma critical_lines_follow_issue_lines_witness :
  od_get (resolve_period_key bundle_30_only (Some "30")) (periods bundle_30_only)
  = Some period_30_only
  /\ exists recs,
       generate_policy_recommendations bundle_30_only (Some "30") = Ok recs
       /\ Forall2 (fun kv entry => critical_with_issue (recommendations entry))
                  (domain_stats (pe_stats period_30_only)) recs.
Proof.
  split; [by vm_compute|].
  apply (critical_lines_follow_issue_lines bundle_30_only (Some "30") period_30_only).
  by vm_compute.
Defined.

(** ** Grouping the sources *)

Lemma group_fold_sum (g : GroupStats -> Z) (h : SourceStats -> Z)
    (resolve_ip : string -> option string) resolve ips_stats groups :
  g new_group = 0 ->
  (forall ip stats grp, g (add_to_group ip stats grp) = g grp + h stats) ->
  sumZ (fun kv => g kv.2)
       (fold_left (fun ip_groups '(ip, stats) =>
                     od_update (org_name_of (hostname_of resolve_ip resolve ip))
                               (add_to_group ip stats) new_group ip_groups)
                  ips_stats groups)
  = sumZ (fun kv => g kv.2) groups + sumZ (fun kv => h kv.2) ips_stats.
Proof.
  intros H0 Hadd. revert groups.
  induction ips_stats as [|[ip stats] ips_stats IH]; intros groups; simpl; [lia|].
  rewrite IH, (sumZ_od_update g) by done. rewrite Hadd. lia.
Qed.

(** X19.  Grouping loses and invents nothing: whatever the reverse lookup
    answers, the message counts of the groups add up to those of the
    sources, and so do the DKIM and SPF passes and failures and the aligned
    messages. *)
Theorem groups_add_up_the_sources resolve_ip ips_stats resolve :
  let groups := group_ips_by_source resolve_ip ips_stats resolve in
  sumZ (fun kv => g_count kv.2) groups = sumZ (fun kv => ip_count kv.2) ips_stats
  /\ sumZ (fun kv => g_dkim_pass kv.2) groups = sumZ (fun kv => ip_dkim_pass kv.2) ips_stats
  /\ sumZ (fun kv => g_dkim_fail kv.2) groups = sumZ (fun kv => ip_dkim_fail kv.2) ips_stats
  /\ sumZ (fun kv => g_spf_pass kv.2) groups = sumZ (fun kv => ip_spf_pass kv.2) ips_stats
  /\ sumZ (fun kv => g_spf_fail kv.2) groups = sumZ (fun kv => ip_spf_fail kv.2) ips_stats
  /\ sumZ (fun kv => g_fully_aligned kv.2) groups
     = sumZ (fun kv => ip_fully_aligned kv.2) ips_stats.
Proof.
  simpl. unfold group_ips_by_source.
  split; [|split; [|split; [|split; [|split]]]].
  - by rewrite (group_fold_sum g_count ip_count resolve_ip resolve ips_stats []).
  - by rewrite (group_fold_sum g_dkim_pass ip_dkim_pass resolve_ip resolve ips_stats []).
  - by rewrite (group_fold_sum g_dkim_fail ip_dkim_fail resolve_ip resolve ips_stats []).
  - by rewrite (group_fold_sum g_spf_pass ip_spf_pass resolve_ip resolve ips_stats []).
  - by rewrite (group_fold_sum g_spf_fail ip_spf_fail resolve_ip resolve ips_stats []).
  - by rewrite (group_fold_sum g_fully_aligned ip_fully_aligned
                  resolve_ip resolve ips_stats []).
Qed.

(** *** Every source is in the group of its organization *)

Lemma grouped_ips_update name ip stats groups :
  Permutation (grouped_ips (od_update name (add_to_group ip stats) new_group groups))
              (ip :: grouped_ips groups).
Proof.
  unfold grouped_ips, od_update.
  induction groups as [|[k0 g0] groups IH]; simpl.
  - done.
  - destruct (decide (k0 = name)) as [->|Hne]; simpl.
    + rewrite <- app_assoc. simpl. symmetry. apply Permutation_middle.
    + rewrite IH. symmetry. apply Permutation_middle.
Qed.

Lemma group_fold_ips resolve_ip resolve ips_stats groups :
  Permutation
    (grouped_ips
       (fold_left (fun ip_groups '(ip, stats) =>
                     od_update (org_name_of (hostname_of resolve_ip resolve ip))
                               (add_to_group ip stats) new_group ip_groups)
                  ips_stats groups))
    (grouped_ips groups ++ map fst ips_stats).
Proof.
  revert groups. induction ips_stats as [|[ip stats] ips_stats IH]; intros groups; simpl.
  - by rewrite app_nil_r.
  - rewrite IH, grouped_ips_update. simpl. by rewrite <- Permutation_middle.
Qed.

Lemma group_fold_named resolve_ip resolve ips_stats groups :
  Forall (fun kv => Forall (fun ip => org_name_of (hostname_of resolve_ip resolve ip) = kv.1)
                           (g_ips kv.2)) groups ->
  NoDup (map fst groups) ->
  let groups' :=
    fold_left (fun ip_groups '(ip, stats) =>
                 od_update (org_name_of (hostname_of resolve_ip resolve ip))
                           (add_to_group ip stats) new_group ip_groups)
              ips_stats groups in
  Forall (fun kv => Forall (fun ip => org_name_of (hostname_of resolve_ip resolve ip) = kv.1)
                           (g_ips kv.2)) groups'
  /\ NoDup (map fst groups').
Proof.
  revert groups. induction ips_stats as [|[ip stats] ips_stats IH];
    intros groups Hnamed Hnd; simpl; [done|].
  apply IH; [|by apply od_set_NoDup].
  apply Forall_forall. intros [name g] Hin.
  apply od_set_elem in Hin as [[-> ->]|Hin].
  - simpl. apply Forall_app. split; [|by repeat constructor].
    destruct (od_get _ groups) as [g0|] eqn:Hget; simpl; [|constructor].
    apply od_get_Some_elem in Hget.
    apply (proj1 (Forall_forall _ _) Hnamed _ Hget).
  - apply (proj1 (Forall_forall _ _) Hnamed _ Hin).
Qed.

(** X20.  The groups partition the sources: the addresses of the groups,
    taken together, are the addresses of the sources, each as often as it is
    a key; every address is in the group named after the organization of its
    host name; and no two groups have the same name. *)
Theorem groups_partition_the_sources resolve_ip ips_stats resolve :
  let groups := group_ips_by_source resolve_ip ips_stats resolve in
  Permutation (grouped_ips groups) (map fst ips_stats)
  /\ Forall (fun kv =>
               Forall (fun ip => org_name_of (hostname_of resolve_ip resolve ip) = kv.1)
                      (g_ips kv.2)) groups
  /\ NoDup (map fst groups).
Proof.
  simpl. unfold group_ips_by_source. split.
  - by rewrite group_fold_ips.
  - apply group_fold_named; constructor.
Qed.

(** *** Without lookup *)

Lemma group_fold_unknown resolve_ip ips_stats g :
  exists g',
    fold_left (fun ip_groups '(ip, stats) =>
                 od_update (org_name_of (hostname_of resolve_ip false ip))
                           (add_to_group ip stats) new_group ip_groups)
              ips_stats [("Unknown", g)]
    = [("Unknown", g')]
    /\ g_ips g' = (g_ips g ++ map fst ips_stats)%list.
Proof.
  revert g. induction ips_stats as [|[ip stats] ips_stats IH]; intros g; simpl.
  - exists g. by rewrite app_nil_r.
  - destruct (IH (add_to_group ip stats g)) as (g' & Hfold & Hips).
    exists g'. split; [exact Hfold|]. rewrite Hips. simpl. by rewrite <- app_assoc.
Qed.

(** X21.  Without reverse lookup all the sources fall into the one group
    [Unknown], in the order of the dictionary; without sources there is no
    group. *)
Theorem unresolved_sources_form_one_group resolve_ip ips_stats :
  ips_stats <> [] ->
  exists g,
    group_ips_by_source resolve_ip ips_stats false = [("Unknown", g)]
    /\ g_ips g = map fst ips_stats.
Proof.
  intros Hne. destruct ips_stats as [|[ip stats] ips_stats]; [done|].
  unfold group_ips_by_source. simpl.
  destruct (group_fold_unknown resolve_ip ips_stats (add_to_group ip stats new_group))
    as (g & Hfold & Hips).
  exists g. split; [exact Hfold|]. by rewrite Hips.
Qed.

Lemma unresolved_sources_form_one_group_witness :
  ips (_calculate_stats_for_reports reports_three) <> []
  /\ exists g,
       group_ips_by_source sample_dns (ips (_calculate_stats_for_reports reports_three)) false
       = [("Unknown", g)]
       /\ g_ips g = map fst (ips (_calculate_stats_for_reports reports_three)).
Proof.
  split; [by vm_compute|].
  apply (unresolved_sources_form_one_group sample_dns). by vm_compute.
Defined.

(** With lookup, the organization is read from the host name: the first
    pattern of the table that the lower-cased name contains, else the
    capitalized label before the last one. *)
Example organizations_of_host_names :
  map (fun h => org_name_of (Some h))
      ["mail-sor-f41.google.com"; "ec2-192-0-2-9.compute-1.amazonaws.com";
       "mail.seattle.example.org"; "mx7.Example.org"; "localhost"]
  = ["Google"; "Amazon"; "AT&T"; "Example"; "Unknown"].
Proof. by vm_compute. Qed.

Example groups_of_three :
  map (fun kv => (kv.1, g_ips kv.2, g_count kv.2))
      (group_ips_by_source sample_dns (ips (_calculate_stats_for_reports reports_three)) true)
  = [("Google", ["192.0.2.1"], 195); ("Unknown", ["192.0.2.2"], 4);
     ("Example", ["198.51.100.7"], 5); ("Amazon", ["192.0.2.9"], 1)].
Proof. by vm_compute. Qed.

(** *** Groups of the accumulated sources *)

Lemma group_fold_Forall (P : GroupStats -> Prop) (Q : SourceStats -> Prop)
    resolve_ip resolve ips_stats groups :
  P new_group ->
  (forall ip stats g, Q stats -> P g -> P (add_to_group ip stats g)) ->
  Forall (fun kv => Q kv.2) ips_stats ->
  Forall (fun kv => P kv.2) groups ->
  Forall (fun kv => P kv.2)
         (fold_left (fun ip_groups '(ip, stats) =>
                       od_update (org_name_of (hostname_of resolve_ip resolve ip))
                                 (add_to_group ip stats) new_group ip_groups)
                    ips_stats groups).
Proof.
  intros Hnew Hadd HQ. revert groups.
  induction HQ as [|[ip stats] ips_stats Hq _ IH]; intros groups HP; simpl; [done|].
  apply IH. apply od_update_Forall; auto.
Qed.

Lemma source_counts_sum reports :
  sumZ (fun kv => ip_count kv.2) (ips (_calculate_stats_for_reports reports))
  = total_messages (_calculate_stats_for_reports reports).
Proof.
  pose proof (measure_reports
                (fun st => sumZ (fun kv => ip_count kv.2) (ips st) - total_messages st)
                (fun _ _ => 0)) as H.
  unfold _calculate_stats_for_reports.
  rewrite <- Z.sub_move_0_r, H; clear H.
  - simpl.
    assert (forall l : list ParsedReport,
              sumZ (fun report => sumZ (fun _ : DmarcRecord => 0) (records report)) l = 0)
      as Hz by (induction l as [|x l IH]; simpl; rewrite ?sumZ_zero; lia).
    rewrite Hz. lia.
  - done.
  - intros domain st r. rewrite (source_sum_record ip_count msg_count_of) by done.
    simpl. lia.
Qed.

(** X22.  Grouped, the sources that the accumulator built still account for
    every message: the counts of the groups add up to [total_messages], and
    in every group the DKIM passes and failures add up to its count, as do
    the SPF passes and failures. *)
Theorem groups_of_accumulated_sources resolve_ip resolve reports :
  let stats := _calculate_stats_for_reports reports in
  let groups := group_ips_by_source resolve_ip (ips stats) resolve in
  sumZ (fun kv => g_count kv.2) groups = total_messages stats
  /\ Forall (fun kv => g_dkim_pass kv.2 + g_dkim_fail kv.2 = g_count kv.2
                       /\ g_spf_pass kv.2 + g_spf_fail kv.2 = g_count kv.2) groups.
Proof.
  simpl. split.
  - unfold group_ips_by_source.
    rewrite (group_fold_sum g_count ip_count resolve_ip resolve _ []) by done. simpl.
    apply source_counts_sum.
  - unfold group_ips_by_source.
    apply (group_fold_Forall
             (fun g => g_dkim_pass g + g_dkim_fail g = g_count g
                       /\ g_spf_pass g + g_spf_fail g = g_count g)
             balanced_source).
    + done.
    + intros ip stats g [? ?] [? ?]. simpl. lia.
    + by destruct (balanced_stats reports) as (_ & Hi & _).
    + constructor.
Qed.

(** ** The periods of the HTML report *)

Lemma dmarc_summary_fold (l : list (string * SourceStats)) p f :
  let '(p', f') :=
    fold_left (fun '(passed_either, failed_both) '(ip, ip_stats) =>
                 (passed_either + ip_fully_aligned ip_stats,
                  failed_both + (ip_count ip_stats - ip_fully_aligned ip_stats)))
              l (p, f) in
  p' = p + sumZ (fun kv => ip_fully_aligned kv.2) l
  /\ p' + f' = p + f + sumZ (fun kv => ip_count kv.2) l.
Proof.
  revert p f. induction l as [|[ip st] l IH]; intros p f; simpl; [lia|].
  specialize (IH (p + ip_fully_aligned st) (f + (ip_count st - ip_fully_aligned st))).
  destruct (fold_left _ l _) as [p' f']. lia.
Qed.

(** X23.  In the summary of a period of the HTML report the messages that
    passed DMARC and the messages that failed it add up to the messages
    processed, the passed ones being the aligned messages of the sources. *)
Theorem summary_adds_up reports :
  let stats := _calculate_stats_for_reports reports in
  (dmarc_summary stats).1 + (dmarc_summary stats).2 = total_messages stats
  /\ (dmarc_summary stats).1 = sumZ (fun kv => ip_fully_aligned kv.2) (ips stats).
Proof.
  simpl. unfold dmarc_summary.
  pose proof (dmarc_summary_fold (ips (_calculate_stats_for_reports reports)) 0 0) as H.
  destruct (fold_left _ _ _) as [p f]. simpl. destruct H as [Hp Hsum].
  rewrite source_counts_sum in Hsum. lia.
Qed.





Lemma select_default_is_shown ps k :
  select_default_period ps = Ok (Some k) ->
  k ∈ map fst ps /\ (meaningful_in ps k = true \/ k = "all").
Proof.
  unfold select_default_period.
  destruct (meaningful_in ps "30") eqn:H30.
  { intros [= <-]. split; [|by left].
    by apply od_get_is_Some, meaningful_in_present. }
  destruct (sorted_by period_order (map fst ps)) as [ordered|] eqn:Hord; simpl; [|done].
  destruct (List.find (meaningful_in ps) ordered) as [x|] eqn:Hfind.
  - intros [= <-]. destruct (sorted_by_find_Some _ _ _ _ _ Hord Hfind) as (Hx & Hm & _).
    split; [done | by left].
  - case_bool_decide as Hall; intros [= <-].
    split; [by apply od_get_is_Some | by right].
Qed.

(** X25.  The HTML report shows first the default period that
    [analyze_reports] chose, whenever it chose one. *)
Theorem html_keeps_the_default now reports keys bundle k :
  analyze_reports now reports keys = Ok bundle ->
  default_period bundle = Some (Some k) ->
  shown_default bundle = k /\ k ∈ shown_periods bundle.
Proof.
  intros Hb Hk.
  assert (reports <> []) as Hne.
  { intros ->. unfold analyze_reports in Hb. injection Hb as <-. done. }
  destruct (analyze_reports_nonempty _ _ _ _ Hne Hb) as (ps & choice & _ & Hsel & ->).
  simpl in Hk. injection Hk as ->.
  destruct (select_default_is_shown _ _ Hsel) as [Hin Hshow].
  assert (k ∈ shown_periods {| periods := ps; default_period := Some (Some k) |}) as Htab.
  { unfold shown_periods. simpl.
    assert (k ∈ List.filter (fun period => meaningful_in ps period
                                           || bool_decide (period = "all"))
                            (map fst ps)) as Hf.
    { apply list_elem_of_In, filter_In. split; [by apply list_elem_of_In|].
      destruct Hshow as [-> | ->]; [done|]. rewrite bool_decide_true by done.
      apply orb_true_r. }
    destruct (List.filter _ (map fst ps)); [inversion Hf | done]. }
  split; [|done]. unfold shown_default. simpl. by rewrite bool_decide_true.
Qed.

Lemma html_keeps_the_default_witness :
  analyze_reports 0 reports_three (Some ["30"; "90"; "all"]) = Ok bundle_three
  /\ default_period bundle_three = Some (Some "90")
  /\ shown_default bundle_three = "90" /\ "90" ∈ shown_periods bundle_three.
Proof.
  split; [exact bundle_three_computed|]. split; [by vm_compute|].
  apply (html_keeps_the_default 0 reports_three (Some ["30"; "90"; "all"]));
    [exact bundle_three_computed | by vm_compute].
Defined.

(** Without default the first period is shown: the bundle of 30 days
    without messages, which the text report cannot index. *)
Example html_without_default :
  let bundle := bundle_of (analyze_reports 0 [report_silent] (Some ["30"])) in
  default_period bundle = Some None
  /\ shown_periods bundle = ["30"] /\ shown_default bundle = "30".
Proof. by vm_compute. Qed.

(** ** The preparation of the reports *)

Lemma sort_reports_elem reports r : r ∈ sort_reports reports <-> r ∈ reports.
Proof.
  unfold sort_reports. rewrite !list_elem_of_In, in_map_iff. split.
  - intros ([k r'] & Hr & Hin). simpl in Hr. subst r'.
    apply list_elem_of_In in Hin. apply (proj1 (insertion_sort_elem (fun r => Ok (begin_key r)) _ _)) in Hin.
    apply list_elem_of_In, in_map_iff in Hin as (r'' & [= _ ->] & Hin). done.
  - intros Hin. exists (begin_key r, r). split; [done|].
    apply list_elem_of_In. apply (proj2 (insertion_sort_elem (fun r => Ok (begin_key r)) _ _)).
    apply list_elem_of_In, in_map_iff. eauto.
Qed.

Lemma sort_reports_sorted reports :
  StronglySorted (fun a b => begin_key a <= begin_key b) (sort_reports reports).
Proof.
  unfold sort_reports.
  assert (Forall (fun p : Z * ParsedReport => p.1 = begin_key p.2)
                 (foldr insert_sorted [] (map (fun r => (begin_key r, r)) reports)))
    as Hkeys.
  { apply Forall_forall. intros [k r] Hin.
    apply (proj1 (insertion_sort_elem (fun r => Ok (begin_key r)) _ _)) in Hin.
    apply list_elem_of_In, in_map_iff in Hin as (r' & [= <- <-] & _). done. }
  pose proof (insertion_sort_ordered (fun r => Ok (begin_key r))
                (map (fun r => (begin_key r, r)) reports)) as Hs.
  revert Hkeys. induction Hs as [|p l Hs IH Hp]; intros Hkeys; simpl; [constructor|].
  apply Forall_cons in Hkeys as [Hk Hkeys]. constructor; [by apply IH|].
  apply Forall_forall. intros r Hr.
  apply list_elem_of_In, in_map_iff in Hr as (q & <- & Hq). apply list_elem_of_In in Hq.
  rewrite <- Hk, <- (proj1 (Forall_forall _ _) Hkeys q Hq).
  apply (proj1 (Forall_forall _ _) Hp q Hq).
Qed.

Lemma split_at_last {A : Type} (P : A -> Prop) `{!forall x, Decision (P x)} (l : list A) :
  Exists P l ->
  exists l1 x l2, l = (l1 ++ x :: l2)%list /\ P x /\ Forall (fun y => ~ P y) l2.
Proof.
  induction l as [|y l IH]; intros Hex; [inversion Hex|].
  destruct (decide (Exists P l)) as [Hl|Hl].
  - destruct (IH Hl) as (l1 & x & l2 & -> & Hx & Hl2).
    exists (y :: l1), x, l2. by repeat split.
  - apply Exists_cons in Hex as [Hy|?]; [|done].
    exists [], y, l. repeat split; [done|]. by apply not_Exists_Forall.
Qed.

Lemma sorted_before {A : Type} (R : A -> A -> Prop) (l1 : list A) x l2 :
  StronglySorted R (l1 ++ x :: l2) -> Forall (fun y => R y x) l1.
Proof.
  induction l1 as [|y l1 IH]; simpl; intros Hs; [constructor|].
  apply StronglySorted_inv in Hs as [Hs Hy]. constructor; [|by apply IH].
  apply Forall_app in Hy as [_ Hy]. by apply Forall_cons in Hy as [Hy _].
Qed.

(** X26.  [main] hands the reports over in the order of their begin dates,
    a report without begin date first.  The policy that the statistics of
    all the reports keep for a domain is then the one published by a report
    on that domain with the latest begin date. *)
Theorem prepared_reports_keep_the_latest_policy reports d :
  d ∈ map domain_of reports ->
  let sorted := prepare_reports reports in
  StronglySorted (fun a b => begin_key a <= begin_key b) sorted
  /\ (forall r, r ∈ sorted <-> r ∈ map with_begin_date reports)
  /\ exists report ds,
       report ∈ sorted
       /\ domain_of report = d
       /\ od_get d (domain_stats (_calculate_stats_for_reports sorted)) = Some ds
       /\ current_policy_of ds = published_policy report
       /\ Forall (fun r => domain_of r = d -> begin_key r <= begin_key report) sorted.
Proof.
  intros Hd. simpl. unfold prepare_reports.
  pose proof (sort_reports_sorted (map with_begin_date reports)) as Hsorted.
  split; [done|]. split; [intros r; apply sort_reports_elem|].
  assert (Exists (fun r => domain_of r = d) (sort_reports (map with_begin_date reports)))
    as Hex.
  { apply list_elem_of_In, in_map_iff in Hd as (r & Hr & Hin).
    apply Exists_exists. exists (with_begin_date r). split; [|done].
    apply sort_reports_elem, list_elem_of_In, in_map_iff. eauto. }
  destruct (split_at_last _ _ Hex) as (l1 & report & l2 & Hsplit & Hrep & Hl2).
  rewrite Hsplit in *. clear Hsplit Hex.
  destruct (last_report_policy l1 report l2) as (ds & Hget & Hpol).
  { eapply Forall_impl; [exact Hl2|]. simpl. intros r Hr. congruence. }
  exists report, ds. subst d.
  split; [apply elem_of_app; right; left|]. split; [done|].
  split; [done|]. split; [done|].
  apply Forall_app. split; [|constructor].
  - eapply Forall_impl; [exact (sorted_before _ _ _ _ Hsorted)|]. simpl. auto.
  - intros _. lia.
  - eapply Forall_impl; [exact Hl2|]. simpl. intros r Hr Heq. done.
Qed.

Lemma prepared_reports_keep_the_latest_policy_witness :
  "example.com" ∈ map domain_of [report_enforcing; report_undated; report_monitoring]
  /\ let sorted := prepare_reports [report_enforcing; report_undated; report_monitoring] in
     StronglySorted (fun a b => begin_key a <= begin_key b) sorted
     /\ (forall r, r ∈ sorted
                   <-> r ∈ map with_begin_date
                             [report_enforcing; report_undated; report_monitoring])
     /\ exists report ds,
          report ∈ sorted
          /\ domain_of report = "example.com"
          /\ od_get "example.com" (domain_stats (_calculate_stats_for_reports sorted))
             = Some ds
          /\ current_policy_of ds = published_policy report
          /\ Forall (fun r => domain_of r = "example.com" ->
                              begin_key r <= begin_key report) sorted.
Proof.
  assert ("example.com"
          ∈ map domain_of [report_enforcing; report_undated; report_monitoring]) as Hd.
  { simpl. left. }
  split; [exact Hd|].
  apply (prepared_reports_keep_the_latest_policy
           [report_enforcing; report_undated; report_monitoring] "example.com" Hd).
Defined.

(** The sample in the order [main] gives it, and the policy kept. *)
Example prepared_sample :
  map begin_key (prepare_reports [report_enforcing; report_undated; report_monitoring])
  = [datetime_min; 86400 * 19000; 86400 * 19060]
  /\ (current_policy_of <$> od_get "example.com"
        (domain_stats (_calculate_stats_for_reports
           (prepare_reports [report_enforcing; report_undated; report_monitoring]))))
     = Some ("reject", 100, "reject")
  /\ date_range_begin (_calculate_stats_for_reports
        (prepare_reports [report_enforcing; report_undated; report_monitoring]))
     = Some datetime_min.
Proof. by vm_compute. Qed.
